(** * WiFi-Smartcard: the control core of [main/gpg.c]

    A shallow embedding of the ESP32 main file: the WiFi event handler
    ([event_handler]), the provisioning prologue and the session loop of
    [taskConnect], the confirmation gate inside it, the reset monitor
    ([checkReset]), the connectivity indicator ([wifiStatus]), [initNVS] and
    [app_main].

    Conventions.
    - C integers are [Z]; the flags [connected], [proceed] and [hardRst] are
      [uint8_t] variables that only ever hold 0 or 1.
    - Calls into ESP-IDF, lwIP and libAPDU are recorded, in program order, in
      a trace of [call]s; what they return is supplied by an environment
      record.  Stores to the flags shared with interrupt handlers are
      recorded in the trace as well.
    - Logging ([ESP_LOGx], the [PRINTAPDU] dumps) has no effect on control
      flow and is left out.  The build has [PROCEEDBTN] defined and [TIMING]
      undefined, as in the source.
    - Calls wrapped in [ESP_ERROR_CHECK] abort the program when they fail;
      the model follows the runs in which they succeed.
    - Time passes in [vTaskDelay] only; an interrupt handler runs during one
      of the delays of the task it interrupts (the one other window that
      matters, just before the wait loop of the gate, is treated apart). *)

From Stdlib Require Import ZArith Lia List Bool.
From stdpp Require Import base gmap strings list.
Import ListNotations.
Open Scope Z_scope.

(** ** Data *)

(** [apdu_t] of libAPDU, as the fields are used and printed by [taskConnect]. *)
Module Apdu.
Record apdu_t : Type := mk {
  CLA : Z; INS : Z; P1 : Z; P2 : Z; P1P2 : Z; Lc : Z; data : list Z; Le : Z
}.
End Apdu.
Abbreviation apdu_t := Apdu.apdu_t.

(** [outData] of libAPDU: a byte array of fixed capacity, declared in
    libAPDU.h, and the number of valid bytes.  The array is a total map
    from index to byte; only the first [length] cells are ever sent. *)
Module OutData.
Record outData : Type := mk { data : nat -> Z; length : Z }.

(** [o.data[i] = v] *)
Definition store (i : nat) (v : Z) (o : outData) : outData :=
  mk (fun j => if Nat.eqb j i then v else data o j) (length o).

(** [o.length = n] *)
Definition set_length (n : Z) (o : outData) : outData := mk (data o) n.

(** The bytes [write(sockfd, o.data, o.length)] hands to the socket. *)
Definition bytes (o : outData) : list Z :=
  map (data o) (seq 0 (Z.to_nat (length o))).
End OutData.
Abbreviation outData := OutData.outData.

(** ESP-IDF error codes (esp_err.h, nvs.h). *)
Definition ESP_OK : Z := 0.
Definition ESP_ERR_NVS_NOT_FOUND : Z := 0x1102.

(** Everything the program does to the outside world, in program order. *)
Inductive call : Type :=
  | GpioSetLevel (pin level : Z)
  | TaskDelay (ms : Z)                 (* vTaskDelay(ms/portTICK_PERIOD_MS) *)
  | NvsOpen
  | NvsGetU8 (key : string)
  | NvsClose
  | NvsEraseKey (key : string)
  | RestoreState
  | Initialize
  | WaitBits                           (* xEventGroupWaitBits(.., CONNECTED_BIT, ..) *)
  | SetBits
  | ClearBits
  | Socket
  | Connect (net : Z)                  (* connect() to IP[net] *)
  | Read
  | Close
  | Invalidate
  | Process (c : apdu_t)
  | SockWrite (bytes : list Z)
  | StoreProceed (v : Z)               (* proceed = v *)
  | StoreHardRst (v : Z)               (* hardRst = v *)
  | WifiSetConfig (net : Z)            (* esp_wifi_set_config(.., wifiConfig[net]) *)
  | WifiConnect
  | InitGPIO
  | InitNVS
  | MountFS
  | InitWiFi
  | TaskCreate (name : string)
  | UnmountFS
  | EspRestart
  | Exit (code : Z).

Definition is_restart (c : call) : bool :=
  match c with EspRestart => true | _ => false end.
Definition is_unmount (c : call) : bool :=
  match c with UnmountFS => true | _ => false end.
Definition is_process (c : call) : bool :=
  match c with Process _ => true | _ => false end.
Definition is_write (c : call) : bool :=
  match c with SockWrite _ => true | _ => false end.
Definition is_delay (c : call) : bool :=
  match c with TaskDelay _ => true | _ => false end.
Definition is_store_proceed (c : call) : bool :=
  match c with StoreProceed _ => true | _ => false end.
Definition is_task_create (c : call) : bool :=
  match c with TaskCreate _ => true | _ => false end.
Definition is_initialize (c : call) : bool :=
  match c with Initialize => true | _ => false end.
Definition is_restore (c : call) : bool :=
  match c with RestoreState => true | _ => false end.
(** The calls of the session loop on the connection to the peer. *)
Definition is_serving (c : call) : bool :=
  match c with
  | WaitBits | Socket | Connect _ | Read | Process _ | SockWrite _ => true
  | _ => false
  end.

(** How often a kind of call occurs in a trace. *)
Definition occurrences (p : call -> bool) (tr : list call) : nat :=
  List.length (List.filter p tr).

(** Total time spent in [vTaskDelay], in milliseconds. *)
Fixpoint delayed (tr : list call) : Z :=
  match tr with
  | [] => 0
  | TaskDelay ms :: tr' => ms + delayed tr'
  | _ :: tr' => delayed tr'
  end.

(** The byte strings written to the socket, in order. *)
Fixpoint written (tr : list call) : list (list Z) :=
  match tr with
  | [] => []
  | SockWrite bs :: tr' => bs :: written tr'
  | _ :: tr' => written tr'
  end.

(** ** Connectivity manager: [event_handler] and [initWiFi] *)

Module Wifi.

Inductive system_event : Type :=
  | SYSTEM_EVENT_STA_START
  | SYSTEM_EVENT_STA_GOT_IP
  | SYSTEM_EVENT_STA_DISCONNECTED
  | SYSTEM_EVENT_OTHER.

(** [currNet] and [nextNet] are the globals of netlist.h; [connected] is
    the status flag and [CONNECTED_BIT] the bit of [wifiEventGroup]. *)
Record state : Type := mk {
  currNet : Z; nextNet : Z; connected : Z; CONNECTED_BIT : bool
}.

Section Handler.
(** [NUMOFNETS] is a macro of netlist.h. *)
Variable NUMOFNETS : Z.

(** [currNet = nextNet; esp_wifi_set_config(.., wifiConfig[..]);
    nextNet = (nextNet + 1) % NUMOFNETS; esp_wifi_connect();]
    C's [%] truncates toward zero: [Z.rem]. *)
Definition attempt (w : state) : state * list call :=
  let cur := nextNet w in
  (mk cur (Z.rem (nextNet w + 1) NUMOFNETS) (connected w) (CONNECTED_BIT w),
   [WifiSetConfig cur; WifiConnect]).

Definition event_handler (ev : system_event) (w : state) : state * list call :=
  match ev with
  | SYSTEM_EVENT_STA_START => attempt w
  | SYSTEM_EVENT_STA_GOT_IP =>
      (mk (currNet w) (nextNet w) 1 true,
       [Invalidate; GpioSetLevel 26 1; SetBits])
  | SYSTEM_EVENT_STA_DISCONNECTED =>
      let w1 := mk (currNet w) (nextNet w) 0 false in
      let '(w2, tr) := attempt w1 in
      (w2, [Invalidate; GpioSetLevel 26 0; ClearBits] ++ tr)
  | SYSTEM_EVENT_OTHER => (w, [])
  end.

(** The handler run over a sequence of events. *)
Fixpoint handle_all (evs : list system_event) (w : state) : state * list call :=
  match evs with
  | [] => (w, [])
  | ev :: evs' =>
      let '(w1, tr1) := event_handler ev w in
      let '(w2, tr2) := handle_all evs' w1 in
      (w2, tr1 ++ tr2)
  end.
End Handler.

(** [initWiFi]: [nextNet = 0]; the other globals keep their values. *)
Definition initWiFi (w : state) : state :=
  mk (currNet w) 0 (connected w) (CONNECTED_BIT w).

Definition is_disconnect (ev : system_event) : bool :=
  match ev with SYSTEM_EVENT_STA_DISCONNECTED => true | _ => false end.
Definition is_start (ev : system_event) : bool :=
  match ev with SYSTEM_EVENT_STA_START => true | _ => false end.

(** Number of link-disconnect events in a sequence. *)
Definition disconnects (evs : list system_event) : nat :=
  List.length (List.filter is_disconnect evs).

(** The networks attempted, in order: the indices handed to
    [esp_wifi_set_config]. *)
Fixpoint attempted (tr : list call) : list Z :=
  match tr with
  | [] => []
  | WifiSetConfig n :: tr' => n :: attempted tr'
  | _ :: tr' => attempted tr'
  end.

End Wifi.

(** ** Non-volatile storage (ESP-IDF NVS), namespace "storage"

    The store maps key names to [uint8_t] values.  The API is ESP-IDF's, not
    this repository's; it is modelled after nvs.h: a lookup or an erase of a
    key that does not exist returns [ESP_ERR_NVS_NOT_FOUND], an erase of an
    existing key removes it and returns [ESP_OK].  Any call may also fail
    with another code, which the environment supplies as a fault. *)
Module Nvs.

(** A fault code overrides the regular result unless it is [ESP_OK]. *)
Definition with_fault {A} (fault : option Z) (regular : Z * A) (unchanged : A) : Z * A :=
  match fault with
  | Some err => if err =? ESP_OK then regular else (err, unchanged)
  | None => regular
  end.

(** [nvs_get_u8(handle, key, &out)]: the error code and the value read. *)
Definition nvs_get_u8 (fault : option Z) (nvs : gmap string Z) (key : string)
    : Z * option Z :=
  with_fault fault
    match nvs !! key with
    | Some v => (ESP_OK, Some v)
    | None => (ESP_ERR_NVS_NOT_FOUND, None)
    end None.

(** [nvs_erase_key(handle, key)]: the error code and the store afterwards. *)
Definition nvs_erase_key (fault : option Z) (nvs : gmap string Z) (key : string)
    : Z * gmap string Z :=
  with_fault fault
    match nvs !! key with
    | Some _ => (ESP_OK, delete key nvs)
    | None => (ESP_ERR_NVS_NOT_FOUND, nvs)
    end nvs.

End Nvs.

(** ** [taskConnect] *)
Module Task.
Import Apdu.

(** *** Controlled restart: the [exit] label *)

(** [for (countdown = 3; countdown > 0; countdown--) vTaskDelay(1000 ms)] *)
Fixpoint countdown (n : nat) : list call :=
  match n with
  | O => []
  | S n' => TaskDelay 1000 :: countdown n'
  end.

Definition exit_path : list call := countdown 3 ++ [UnmountFS; EspRestart].

(** *** Provisioning prologue (before the loop) *)

Record boot_env : Type := {
  nvs_open_ret : Z;               (* nvs_open("storage", ..) *)
  nvs_get_fault : option Z;       (* a failure of nvs_get_u8 other than "not found" *)
  restoreState_ret : Z;           (* restoreState() *)
  initialize_ret : Z              (* initialize() *)
}.

(** The error code [nvs_get_u8(nvsHandle, "initialized", ..)] returns. *)
Definition read_err (e : boot_env) (nvs : gmap string Z) : Z :=
  fst (Nvs.nvs_get_u8 (nvs_get_fault e) nvs "initialized").

(** Returns the trace, whether the loop is entered ([true]) or control goes
    to [exit] ([false]), and the value of [hardRst] afterwards. *)
Definition prologue (e : boot_env) (nvs : gmap string Z) (hardRst : Z)
    : list call * bool * Z :=
  let t0 := [GpioSetLevel 25 1; NvsOpen] in
  if negb (nvs_open_ret e =? ESP_OK) then (t0, false, hardRst)
  else
    let err := read_err e nvs in
    let t1 := t0 ++ [NvsGetU8 "initialized"; NvsClose] in
    if err =? ESP_OK then
      if negb (restoreState_ret e =? 0)
      then (t1 ++ [RestoreState; StoreHardRst 1], false, 1)
      else (t1 ++ [RestoreState; GpioSetLevel 25 0], true, hardRst)
    else if err =? ESP_ERR_NVS_NOT_FOUND then
      if negb (initialize_ret e =? 0)
      then (t1 ++ [Initialize], false, hardRst)
      else (t1 ++ [Initialize; GpioSetLevel 25 0], true, hardRst)
    else (t1, false, hardRst).

(** *** The confirmation gate ([#ifdef PROCEEDBTN]) *)

(** [(comAPDU.CLA != 0x10) & (comAPDU.INS == 0x88 || comAPDU.INS == 0x2A)]:
    a bitwise AND of two C truth values. *)
Definition sensitive (c : apdu_t) : bool :=
  negb (Z.land (Z.b2z (negb (CLA c =? 0x10)))
               (Z.b2z ((INS c =? 0x88) || (INS c =? 0x2A))) =? 0).

(** [proceedHandle]: the interrupt handler stores 1 into [proceed]. *)
Definition proceedHandle (fires : bool) (proceed : Z) : Z :=
  if fires then 1 else proceed.

(** One pass through the body of the wait loop, up to [time++]: both
    indicators on, 250 ms, both off, 250 ms. *)
Definition pulse : list call :=
  [GpioSetLevel 25 1; GpioSetLevel 26 1; TaskDelay 250;
   GpioSetLevel 25 0; GpioSetLevel 26 0; TaskDelay 250].

(** [while (proceed == 0 && time < 30) { .. time++; }]
    Each iteration sleeps twice for 250 ms; [press n] tells whether the
    proceed button interrupt fires during the [n]-th sleep of this wait
    (sleep [n] covers the milliseconds from [250 * n] to [250 * (n + 1)]).
    Returns the trace and the final values of [proceed] and [time].
    The loop is entered with the value [proceed] has at the first test; in
    [gate] below that is the 0 just stored, so a press in the short window
    between that store and the first test is not among the runs of [gate]
    ([gate_with_early_press], further down, has it). *)
Fixpoint wait (fuel : nat) (press : nat -> bool) (proceed time : Z)
    : list call * Z * Z :=
  match fuel with
  | O => ([], proceed, time)
  | S fuel' =>
      if (proceed =? 0) && (time <? 30) then
        let p1 := proceedHandle (press (Z.to_nat (2 * time))) proceed in
        let p2 := proceedHandle (press (Z.to_nat (2 * time + 1))) p1 in
        let '(tr, p, t) := wait fuel' press p2 (time + 1) in
        (pulse ++ tr, p, t)
      else ([], proceed, time)
  end.

(** The loop condition, as tested on the values [wait] returns. *)
Definition waiting (r : list call * Z * Z) : bool :=
  let '(_, p, t) := r in (p =? 0) && (t <? 30).

(** What [taskConnect] keeps across iterations: the response buffer
    (declared outside the loop) and the shared [proceed] flag. *)
Record state : Type := mk { output : outData; proceed : Z }.

(** The body of the [if] at lines 256-276.  The boolean tells whether the
    gate jumped to [writeOutput] with the lockout response. *)
Definition gate (press : nat -> bool) (st : state) : list call * bool * state :=
  let '(tr, p, t) := wait 30 press 0 0 in
  let tg := [StoreProceed 0] ++ tr ++ [GpioSetLevel 26 1] in
  if t =? 30 then
    let o := OutData.set_length 2
               (OutData.store 1 0x83 (OutData.store 0 0x69 (output st))) in
    (tg, true, mk o p)
  else (tg, false, mk (output st) p).

(** *** One iteration of [while(1)] *)

Record session_env : Type := {
  env_currNet : Z;                 (* currNet when IP[currNet] is read *)
  socket_ret : Z;                  (* socket() *)
  connect_ret : Z;                 (* connect() *)
  parsed : apdu_t;                 (* parseAPDU(recvBuf, r) *)
  press : nat -> bool;             (* the proceed button, see [wait] *)
  process_out : outData -> outData;  (* what process(comAPDU, &output) leaves in output *)
  write_ret : Z                    (* write() *)
}.

(** Where control goes after the iteration. *)
Inductive next : Type :=
  | GotoBegin        (* goto begin: back to xEventGroupWaitBits *)
  | NextIteration    (* end of the loop body: back to xEventGroupWaitBits *)
  | GotoExit.        (* goto exit: controlled restart *)

(** Lines 279-309: the command is processed. *)
Definition serve (e : session_env) (st : state) : list call * state :=
  ([GpioSetLevel 25 1; Process (parsed e); GpioSetLevel 25 0],
   mk (process_out e (output st)) (proceed st)).

(** The [writeOutput] label to the end of the loop body. *)
Definition writeOutput (e : session_env) (st : state) : list call * next :=
  let w := SockWrite (OutData.bytes (output st)) in
  if write_ret e <? 0 then ([w; TaskDelay 1000; Close], GotoExit)
  else ([w; Close], NextIteration).

Definition session (e : session_env) (st : state) : list call * next * state :=
  let t0 := [WaitBits; Socket] in
  if socket_ret e <? 0 then (t0 ++ [TaskDelay 1000], GotoExit, st)
  else if negb (connect_ret e =? 0) then
    (t0 ++ [Connect (env_currNet e); Invalidate; Close; TaskDelay 5000], GotoBegin, st)
  else
    let t1 := t0 ++ [Connect (env_currNet e); Read] in
    if INS (parsed e) =? 0x00 then (t1 ++ [Invalidate; Close], GotoBegin, st)
    else
      let '(tg, locked, st1) :=
        if sensitive (parsed e) then gate (press e) st else ([], false, st) in
      let '(tp, st2) := if locked then ([], st1) else serve e st1 in
      let '(tw, nx) := writeOutput e st2 in
      (t1 ++ tg ++ tp ++ tw, nx, st2).

(** *** The loop, and the task *)

(** The loop over the sessions the environment offers.  [Some st]: the
    task is back at the blocking wait with state [st]; [None]: it went
    through [exit] and restarted the device. *)
Fixpoint loop (es : list session_env) (st : state) : list call * option state :=
  match es with
  | [] => ([], Some st)
  | e :: es' =>
      let '(tr, nx, st1) := session e st in
      match nx with
      | GotoExit => (tr ++ exit_path, None)
      | GotoBegin | NextIteration =>
          let '(tr', r) := loop es' st1 in (tr ++ tr', r)
      end
  end.

Definition taskConnect (be : boot_env) (nvs : gmap string Z) (hardRst : Z)
    (es : list session_env) (st : state) : list call * option state :=
  let '(tb, ready, _) := prologue be nvs hardRst in
  if ready then let '(tl, r) := loop es st in (tb ++ tl, r)
  else (tb ++ exit_path, None).

End Task.

(** ** [checkReset]: the reset monitor *)
Module Reset.

Record poll_env : Type := {
  open_ret : Z;                 (* nvs_open("storage", ..) *)
  erase_fault : option Z        (* a failure of nvs_erase_key other than "not found" *)
}.

(** One iteration of [while(1)].  Returns the trace, the store afterwards
    and whether the device was restarted. *)
Definition poll (e : poll_env) (hardRst : Z) (nvs : gmap string Z)
    : list call * gmap string Z * bool :=
  if hardRst =? 1 then
    if open_ret e =? ESP_OK then
      let '(err, nvs') := Nvs.nvs_erase_key (erase_fault e) nvs "initialized" in
      if err =? ESP_OK
      then ([NvsOpen; NvsEraseKey "initialized"; UnmountFS; EspRestart], nvs', true)
      else ([NvsOpen; NvsEraseKey "initialized"; TaskDelay 4000], nvs', false)
    else ([NvsOpen; TaskDelay 4000], nvs, false)
  else ([TaskDelay 4000], nvs, false).

Definition is_erase (c : call) : bool :=
  match c with NvsEraseKey _ => true | _ => false end.

(** [checkReset]: the loop, one [poll] per element of [es] until the
    device restarts.  [hardRst] is read anew at every iteration: each
    element carries the value the flag has at that moment. *)
Fixpoint checkReset (es : list (Z * poll_env)) (nvs : gmap string Z)
    : list call * gmap string Z * bool :=
  match es with
  | [] => ([], nvs, false)
  | (h, e) :: es' =>
      let '(tr, nvs1, restarted) := poll e h nvs in
      if restarted then (tr, nvs1, true)
      else let '(tr', nvs2, r) := checkReset es' nvs1 in (tr ++ tr', nvs2, r)
  end.

(** The trace of an iteration that sees the flag set and does not get to
    the restart: the erase is tried if the store opens, then 4 s sleep. *)
Definition retry (e : poll_env) : list call :=
  if open_ret e =? ESP_OK
  then [NvsOpen; NvsEraseKey "initialized"; TaskDelay 4000]
  else [NvsOpen; TaskDelay 4000].

End Reset.

(** ** [app_main] *)
Module Main.

(** [mountFS]: 0 when the mount fails, 1 otherwise. *)
Definition mountFS (mount_err : Z) : Z :=
  if negb (mount_err =? ESP_OK) then 0 else 1.

Definition app_main (mount_err : Z) : list call :=
  [InitGPIO; InitNVS; MountFS] ++
  if mountFS mount_err =? 0 then [Exit 0]
  else [InitWiFi; TaskCreate "taskConnect"; TaskCreate "checkReset";
        TaskCreate "wifiStatus"].

End Main.

(** ** [initNVS] *)
Module Startup.

Definition ESP_ERR_NVS_NO_FREE_PAGES : Z := 0x110d.

(** What [initNVS] calls. *)
Inductive nvs_call : Type :=
  | NvsFlashInit            (* nvs_flash_init() *)
  | PartitionFindFirst      (* esp_partition_find_first(DATA, NVS, NULL) *)
  | PartitionEraseRange.    (* esp_partition_erase_range(nvs_partition, 0, size) *)

Record nvs_env : Type := {
  first_init : Z;           (* the first nvs_flash_init() *)
  partition_found : bool;   (* esp_partition_find_first returned non-NULL *)
  erase_ret : Z;            (* esp_partition_erase_range *)
  second_init : Z           (* the retried nvs_flash_init() *)
}.

(** The trace, and whether the function returns ([true]) or the program is
    aborted by [assert] or [ESP_ERROR_CHECK] ([false]). *)
Definition initNVS (e : nvs_env) : list nvs_call * bool :=
  if first_init e =? ESP_ERR_NVS_NO_FREE_PAGES then
    if negb (partition_found e) then ([NvsFlashInit; PartitionFindFirst], false)
    else if negb (erase_ret e =? ESP_OK)
    then ([NvsFlashInit; PartitionFindFirst; PartitionEraseRange], false)
    else ([NvsFlashInit; PartitionFindFirst; PartitionEraseRange; NvsFlashInit],
          second_init e =? ESP_OK)
  else ([NvsFlashInit], first_init e =? ESP_OK).

(** How often a kind of call occurs in a trace of [initNVS]. *)
Definition count (p : nvs_call -> bool) (tr : list nvs_call) : nat :=
  List.length (List.filter p tr).

Definition is_erase_range (c : nvs_call) : bool :=
  match c with PartitionEraseRange => true | _ => false end.
Definition is_flash_init (c : nvs_call) : bool :=
  match c with NvsFlashInit => true | _ => false end.

(** [initNVS] gets to call [esp_partition_erase_range] on the NVS partition.
    The erase is ESP-IDF's: when it fails, how much of the partition is
    gone is not known (and the program aborts); the store is taken as lost
    whenever the erase is called. *)
Definition wipes (e : nvs_env) : bool :=
  (first_init e =? ESP_ERR_NVS_NO_FREE_PAGES) && partition_found e.

End Startup.

(** ** The device: the tasks and interrupt handlers over the shared state

    [taskConnect], [checkReset] and the two button handlers run
    interleaved.  An action is one handler invocation or one block of a task
    (the prologue, one session, the exit path, one poll of the monitor);
    any order of actions is an execution.  [restoreState], [process] and
    [invalidate] are libAPDU's; they keep their secrets on the mounted
    filesystem and are taken not to touch the NVS namespace "storage".

    After every reset [app_main] runs before the tasks exist; what it does
    to the shared state is [initNVS], the action [AppInit].  The order is
    not forced on the executions: a [Boot] that no [AppInit] precedes stands
    for a boot whose [initNVS] found the partition in order and left it
    alone, so every execution of the device is an execution of the model
    (and the model has some more).  [mountFS] may format the FAT partition
    labelled "storage"; that is another partition than the NVS one, whose
    namespace "storage" holds the key. *)
Module Device.

(** Where [taskConnect] is. *)
Inductive phase : Type := Booting | Serving | Exiting.

Record sys : Type := mk {
  hardRst : Z;
  conn : Task.state;            (* the response buffer and [proceed] *)
  nvs : gmap string Z;
  task : phase
}.

Inductive action : Type :=
  | HardResetButton                    (* the interrupt handler hardReset *)
  | ProceedButton                      (* the interrupt handler proceedHandle *)
  | Boot (e : Task.boot_env)           (* taskConnect: the prologue *)
  | Serve (e : Task.session_env)       (* taskConnect: one loop iteration *)
  | ExitPath                           (* taskConnect: the exit label *)
  | Poll (e : Reset.poll_env)          (* checkReset: one loop iteration *)
  | AppInit (e : Startup.nvs_env).     (* app_main: initGPIO and initNVS *)

(** [esp_restart]: the globals get their initialisers again; the restart
    itself keeps the non-volatile store (what [initNVS] does to it at the
    boot that follows is the action [AppInit]). *)
Definition restart (s : sys) : sys :=
  mk 0 (Task.mk (Task.output (conn s)) 0) (nvs s) Booting.

(** Modelled from the spec: [initialize] is libAPDU's and not part of the
    source at hand.  "On success, persist Provisioned": a successful
    [initialize] leaves the key "initialized" in the store, a failed one
    leaves the store alone. *)
Definition initialize_persist (ret : Z) (nvs : gmap string Z) : gmap string Z :=
  if ret =? 0 then <["initialized" := 1]> nvs else nvs.

Definition step (a : action) (s : sys) : sys * list call :=
  match a with
  | HardResetButton => (mk 1 (conn s) (nvs s) (task s), [StoreHardRst 1])
  | ProceedButton =>
      (mk (hardRst s) (Task.mk (Task.output (conn s)) 1) (nvs s) (task s),
       [StoreProceed 1])
  | Boot e =>
      match task s with
      | Booting =>
          let '(tb, ready, h) := Task.prologue e (nvs s) (hardRst s) in
          let nvs' := if existsb is_initialize tb
                      then initialize_persist (Task.initialize_ret e) (nvs s)
                      else nvs s in
          (mk h (conn s) nvs' (if ready then Serving else Exiting), tb)
      | _ => (s, [])
      end
  | Serve e =>
      match task s with
      | Serving =>
          let '(tr, nx, st) := Task.session e (conn s) in
          (mk (hardRst s) st (nvs s)
              match nx with Task.GotoExit => Exiting | _ => Serving end, tr)
      | _ => (s, [])
      end
  | ExitPath =>
      match task s with
      | Exiting => (restart s, Task.exit_path)
      | _ => (s, [])
      end
  | Poll e =>
      let '(tr, nvs', restarted) := Reset.poll e (hardRst s) (nvs s) in
      let s' := mk (hardRst s) (conn s) nvs' (task s) in
      (if restarted then restart s' else s', tr)
  | AppInit e =>
      match task s with
      | Booting =>
          (* the store is lost if the partition erase is called; when
             initNVS aborts, the device is reset (ESP-IDF's abort) *)
          let nvs' := if Startup.wipes e then ∅ else nvs s in
          let s' := mk (hardRst s) (conn s) nvs' Booting in
          (if snd (Startup.initNVS e) then s' else restart s', [InitGPIO; InitNVS])
      | _ => (s, [])
      end
  end.

Fixpoint run (acts : list action) (s : sys) : sys * list call :=
  match acts with
  | [] => (s, [])
  | a :: acts' =>
      let '(s1, tr1) := step a s in
      let '(s2, tr2) := run acts' s1 in
      (s2, tr1 ++ tr2)
  end.

(** The key "initialized" is in the store before the action and gone after. *)
Definition erases (a : action) (s : sys) : Prop :=
  is_Some (nvs s !! "initialized") ∧ nvs (fst (step a s)) !! "initialized" = None.

(** The action stores 1 into [hardRst] (a [StoreHardRst 1] in its trace). *)
Definition sets_hardRst (a : action) (s : sys) : Prop :=
  In (StoreHardRst 1) (snd (step a s)).

Definition is_hard_reset_button (a : action) : bool :=
  match a with HardResetButton => true | _ => false end.

(** The action is an [initNVS] that gets to erase the NVS partition. *)
Definition erases_partition (a : action) : bool :=
  match a with AppInit e => Startup.wipes e | _ => false end.

(** Power-on and every restart start here. *)
Definition power_on (o : outData) (nvs : gmap string Z) : sys :=
  mk 0 (Task.mk o 0) nvs Booting.

End Device.

(** ** [wifiStatus]: the connectivity indicator *)
Module Status.

(** One iteration of [while(1)]:
    [if (connected == 0) { toggle ^= 1; gpio_set_level(GPIO_NUM_26, toggle); }
     vTaskDelay(500 ms);]
    [connected] is the value of the shared flag read in this iteration. *)
Definition blink (connected toggle : Z) : Z * list call :=
  if connected =? 0 then
    let t := Z.lxor toggle 1 in (t, [GpioSetLevel 26 t; TaskDelay 500])
  else (toggle, [TaskDelay 500]).

(** The loop over the values of [connected] read, one per iteration; the
    local [toggle] starts at 0 in the source. *)
Fixpoint wifiStatus (reads : list Z) (toggle : Z) : Z * list call :=
  match reads with
  | [] => (toggle, [])
  | c :: reads' =>
      let '(t1, tr1) := blink c toggle in
      let '(t2, tr2) := wifiStatus reads' t1 in
      (t2, tr1 ++ tr2)
  end.

(** Number of iterations that found the link down. *)
Definition downs (reads : list Z) : nat :=
  List.length (List.filter (fun c => c =? 0) reads).

End Status.

(** ** Observations on traces and runs *)

Definition is_close (c : call) : bool :=
  match c with Close => true | _ => false end.
Definition is_socket (c : call) : bool :=
  match c with Socket => true | _ => false end.
Definition is_invalidate (c : call) : bool :=
  match c with Invalidate => true | _ => false end.
Definition is_wait (c : call) : bool :=
  match c with WaitBits => true | _ => false end.

(** The level of an output pin after a trace, given the level before. *)
Fixpoint gpio_level (pin : Z) (tr : list call) (level : Z) : Z :=
  match tr with
  | [] => level
  | GpioSetLevel p l :: tr' => gpio_level pin tr' (if p =? pin then l else level)
  | _ :: tr' => gpio_level pin tr' level
  end.

(** The levels written to an output pin, in order. *)
Fixpoint gpio_writes (pin : Z) (tr : list call) : list Z :=
  match tr with
  | [] => []
  | GpioSetLevel p l :: tr' =>
      if p =? pin then l :: gpio_writes pin tr' else gpio_writes pin tr'
  | _ :: tr' => gpio_writes pin tr'
  end.

(** A link event: the handler got an address or lost the link. *)
Definition is_link_event (ev : Wifi.system_event) : bool :=
  match ev with
  | Wifi.SYSTEM_EVENT_STA_GOT_IP | Wifi.SYSTEM_EVENT_STA_DISCONNECTED => true
  | _ => false
  end.

(** The flag [connected] and the bit of the event group say the same. *)
Definition link_agrees (w : Wifi.state) : Prop :=
  (Wifi.connected w = 1 ∧ Wifi.CONNECTED_BIT w = true)
  ∨ (Wifi.connected w = 0 ∧ Wifi.CONNECTED_BIT w = false).

(** The gate, with the one window for the button that [Task.wait] leaves
    out: between the store [proceed = 0] (line 257) and the first test of
    the loop (line 260) the handler can run too.  [early] tells whether it
    does; the loop then starts with [proceed] as the handler left it.  With
    [early = false] this is [Task.gate]. *)
Definition gate_with_early_press (early : bool) (press : nat -> bool)
    (st : Task.state) : list call * bool * Task.state :=
  let '(tr, p, t) := Task.wait 30 press (Task.proceedHandle early 0) 0 in
  let tg := [StoreProceed 0] ++ tr ++ [GpioSetLevel 26 1] in
  if t =? 30 then
    let o := OutData.set_length 2
               (OutData.store 1 0x83 (OutData.store 0 0x69 (Task.output st))) in
    (tg, true, Task.mk o p)
  else (tg, false, Task.mk (Task.output st) p).

(** The session gets a command to answer: the socket is allocated, the peer
    accepts, and the parsed instruction byte is not 00. *)
Definition command_received (e : Task.session_env) : bool :=
  negb (Task.socket_ret e <? 0) && (Task.connect_ret e =? 0)
  && negb (Apdu.INS (Task.parsed e) =? 0).

(** The session ends in [goto exit]: no socket, or a failed write. *)
Definition session_fatal (e : Task.session_env) : bool :=
  (Task.socket_ret e <? 0) || (command_received e && (Task.write_ret e <? 0)).

(** The action asks for a hard reset: the button, or a prologue whose
    [restoreState] fails. *)
Definition requests_reset (a : Device.action) : bool :=
  match a with
  | Device.HardResetButton => true
  | Device.Boot e => negb (Task.restoreState_ret e =? 0)
  | _ => false
  end.

(** ** Concrete environments, used to run the model *)
Module Examples.

Definition buffer0 : outData := OutData.mk (fun _ => 0) 0.
Definition st0 : Task.state := Task.mk buffer0 0.

Definition command (cla ins : Z) : apdu_t := Apdu.mk cla ins 0 0 0 0 [] 0.

(** A command processor that answers with the status word 90 00. *)
Definition answer_9000 (o : outData) : outData :=
  OutData.set_length 2 (OutData.store 1 0x00 (OutData.store 0 0x90 o)).

(** A peer that accepts the connection and sends one command. *)
Definition peer (cla ins : Z) (press : nat → bool) (write_ret : Z)
    : Task.session_env :=
  {| Task.env_currNet := 0; Task.socket_ret := 3; Task.connect_ret := 0;
     Task.parsed := command cla ins; Task.press := press;
     Task.process_out := answer_9000; Task.write_ret := write_ret |}.

(** The button is never pressed / pressed during sleep [k] only. *)
Definition never : nat → bool := fun _ => false.
Definition only_at (k : nat) : nat → bool := fun n => Nat.eqb n k.

Definition provisioned : gmap string Z := {[ "initialized" := 1 ]}.

Definition boots (restore_ret init_ret : Z) : Task.boot_env :=
  {| Task.nvs_open_ret := ESP_OK; Task.nvs_get_fault := None;
     Task.restoreState_ret := restore_ret; Task.initialize_ret := init_ret |}.

Definition polls : Reset.poll_env :=
  {| Reset.open_ret := ESP_OK; Reset.erase_fault := None |}.

(** [initNVS] on a partition in order / on one without free pages. *)
Definition nvs_in_order : Startup.nvs_env :=
  {| Startup.first_init := ESP_OK; Startup.partition_found := true;
     Startup.erase_ret := ESP_OK; Startup.second_init := ESP_OK |}.
Definition nvs_full : Startup.nvs_env :=
  {| Startup.first_init := Startup.ESP_ERR_NVS_NO_FREE_PAGES;
     Startup.partition_found := true;
     Startup.erase_ret := ESP_OK; Startup.second_init := ESP_OK |}.

End Examples.

(** * Properties *)

(** ** Connectivity manager *)

Section RoundRobin.
Variable N : Z.
Hypothesis N_pos : 1 ≤ N.

(** One attempt from index [a mod N] moves on to [(a + 1) mod N]. *)
Lemma attempt_advances (w : Wifi.state) (a : Z) :
  0 ≤ a → Wifi.nextNet w = a mod N →
  Wifi.attempt N w =
    (Wifi.mk (a mod N) ((a + 1) mod N) (Wifi.connected w) (Wifi.CONNECTED_BIT w),
     [WifiSetConfig (a mod N); WifiConnect]).
Proof using N_pos.
  intros Ha Hn. unfold Wifi.attempt. rewrite Hn.
  rewrite Z.rem_mod_nonneg by (try lia; pose proof (Z.mod_pos_bound a N); lia).
  by rewrite Zplus_mod_idemp_l.
Qed.

Lemma seq_indices (f : Z → Z) (a : Z) (k : nat) :
  map (fun i => f (a + Z.of_nat i)) (seq 0 (S k)) =
  f a :: map (fun i => f (a + 1 + Z.of_nat i)) (seq 0 k).
Proof using Type.
  rewrite <- cons_seq, <- seq_shift, map_cons, map_map.
  f_equal; [f_equal; lia |].
  apply map_ext. intros i. f_equal. lia.
Qed.

(** From a state whose next index is [a mod N], a run without a further
    start event attempts the networks [a], [a + 1], .. (modulo [N]), one
    per disconnect. *)
Lemma handle_all_cycles (evs : list Wifi.system_event) :
  ∀ (w : Wifi.state) (a : Z),
    0 ≤ a → Wifi.nextNet w = a mod N →
    existsb Wifi.is_start evs = false →
    let r := Wifi.handle_all N evs w in
    let k := Wifi.disconnects evs in
    Wifi.nextNet (fst r) = (a + Z.of_nat k) mod N ∧
    Wifi.attempted (snd r) = map (fun i => (a + Z.of_nat i) mod N) (seq 0 k) ∧
    Wifi.currNet (fst r) =
      match k with O => Wifi.currNet w | S k' => (a + Z.of_nat k') mod N end.
Proof using N_pos.
  induction evs as [|ev evs IH]; intros w a Ha Hn Hs.
  - cbn. rewrite Z.add_0_r. auto.
  - cbn in Hs. apply orb_false_elim in Hs as [Hev Hs].
    destruct ev; try discriminate Hev; cbn -[seq Z.of_nat Wifi.attempt].
    + (* got an address: the indices are untouched *)
      specialize (IH (Wifi.mk (Wifi.currNet w) (Wifi.nextNet w) 1 true) a Ha Hn Hs).
      destruct (Wifi.handle_all N evs _) as [w2 tr2]. exact IH.
    + (* disconnect: one more attempt *)
      unfold Wifi.disconnects. cbn -[seq Z.of_nat Wifi.attempt].
      fold (Wifi.disconnects evs).
      rewrite (attempt_advances _ a) by done.
      assert (Ha1 : 0 ≤ a + 1) by lia.
      specialize (IH (Wifi.mk (a mod N) ((a + 1) mod N) 0 false) (a + 1) Ha1 eq_refl Hs).
      destruct (Wifi.handle_all N evs _) as [w2 tr2].
      cbn -[seq Z.of_nat] in IH |- *. destruct IH as (IHn & IHa & IHc).
      split; [rewrite IHn; f_equal; lia |].
      split.
      * rewrite IHa. by rewrite (seq_indices (fun x => x mod N)).
      * rewrite IHc. destruct (Wifi.disconnects evs); cbn -[Z.of_nat]; [f_equal; lia |].
        f_equal. lia.
    + specialize (IH w a Ha Hn Hs).
      destruct (Wifi.handle_all N evs _) as [w2 tr2]. exact IH.
Qed.
End RoundRobin.

(** C6. For every number [N ≥ 1] of candidate networks: after [initWiFi],
    the start event and any further events of which [k] are disconnects (and
    none is another start), the network being attempted is [k mod N], the
    next one to attempt is [(k + 1) mod N], and the networks attempted so
    far were [0 mod N], [1 mod N], .., [k mod N], in this order: every
    attempt takes the candidate at the current index and advances the index
    by one modulo [N]. *)
Theorem attempt_index_after_disconnects
    (N : Z) (w0 : Wifi.state) (evs : list Wifi.system_event) :
  1 ≤ N →
  existsb Wifi.is_start evs = false →
  let r := Wifi.handle_all N (Wifi.SYSTEM_EVENT_STA_START :: evs) (Wifi.initWiFi w0) in
  let k := Wifi.disconnects evs in
  Wifi.currNet (fst r) = Z.of_nat k mod N ∧
  Wifi.nextNet (fst r) = (Z.of_nat k + 1) mod N ∧
  Wifi.attempted (snd r) = map (fun i => Z.of_nat i mod N) (seq 0 (S k)).
Proof.
  intros HN Hs. cbn -[seq Z.of_nat Wifi.attempt].
  rewrite (attempt_advances N HN _ 0) by (cbn; rewrite ?Z.mod_0_l; lia).
  pose proof (handle_all_cycles N HN evs
    (Wifi.mk (0 mod N) ((0 + 1) mod N) (Wifi.connected (Wifi.initWiFi w0))
       (Wifi.CONNECTED_BIT (Wifi.initWiFi w0))) 1 ltac:(lia) eq_refl Hs) as H.
  destruct (Wifi.handle_all N evs _) as [w2 tr2].
  cbn -[seq Z.of_nat] in H |- *. destruct H as (Hn & Ha & Hc).
  split; [| split].
  - rewrite Hc. destruct (Wifi.disconnects evs); [done |].
    f_equal. lia.
  - rewrite Hn. f_equal. lia.
  - rewrite Ha. rewrite (seq_indices (fun x => x mod N) 0). reflexivity.
Qed.

(** Three networks, five disconnects: 0 1 2 0 1 2. *)
Lemma attempt_index_after_disconnects_witness :
  let evs := [Wifi.SYSTEM_EVENT_STA_DISCONNECTED; Wifi.SYSTEM_EVENT_STA_DISCONNECTED;
              Wifi.SYSTEM_EVENT_STA_GOT_IP; Wifi.SYSTEM_EVENT_STA_DISCONNECTED;
              Wifi.SYSTEM_EVENT_STA_DISCONNECTED; Wifi.SYSTEM_EVENT_STA_DISCONNECTED] in
  let r := Wifi.handle_all 3 (Wifi.SYSTEM_EVENT_STA_START :: evs)
             (Wifi.initWiFi (Wifi.mk 7 7 0 false)) in
  Wifi.currNet (fst r) = 2 ∧ Wifi.nextNet (fst r) = 0 ∧
  Wifi.attempted (snd r) = [0; 1; 2; 0; 1; 2].
Proof.
  apply (attempt_index_after_disconnects 3 (Wifi.mk 7 7 0 false)); [lia | reflexivity].
Defined.

(** ** Trace bookkeeping *)

Lemma occurrences_app (p : call → bool) (t1 t2 : list call) :
  occurrences p (t1 ++ t2) = (occurrences p t1 + occurrences p t2)%nat.
Proof. unfold occurrences. by rewrite List.filter_app, List.length_app. Qed.

Lemma delayed_app (t1 t2 : list call) : delayed (t1 ++ t2) = delayed t1 + delayed t2.
Proof.
  induction t1 as [|c t1 IH]; [done |].
  destruct c; cbn; rewrite IH; lia.
Qed.

Lemma written_app (t1 t2 : list call) : written (t1 ++ t2) = written t1 ++ written t2.
Proof.
  induction t1 as [|c t1 IH]; [done |].
  destruct c; cbn; by rewrite IH.
Qed.

(** [n] passes through the body of the wait loop. *)
Lemma pulses_delayed (n : nat) :
  delayed (concat (repeat Task.pulse n)) = 500 * Z.of_nat n.
Proof.
  induction n as [|n IH]; [done |].
  cbn [repeat concat]. rewrite delayed_app, IH. cbn. lia.
Qed.

Lemma pulses_quiet (p : call → bool) (n : nat) :
  occurrences p Task.pulse = O → occurrences p (concat (repeat Task.pulse n)) = O.
Proof.
  intros Hp. induction n as [|n IH]; [done |].
  cbn [repeat concat]. by rewrite occurrences_app, Hp, IH.
Qed.

Lemma pulses_written (n : nat) : written (concat (repeat Task.pulse n)) = [].
Proof.
  induction n as [|n IH]; [done |].
  cbn [repeat concat]. by rewrite written_app, IH.
Qed.

(** ** The wait loop of the confirmation gate *)

(** Once [proceed] is set the loop is over. *)
Lemma wait_confirmed (fuel : nat) (press : nat → bool) (p t : Z) :
  p ≠ 0 → Task.wait fuel press p t = ([], p, t).
Proof.
  intros Hp. destruct fuel; [done |]. cbn.
  by destruct (Z.eqb_spec p 0).
Qed.

(** Thirty units of fuel are enough: whatever the button does, the loop
    condition is false on the values returned. *)
Lemma wait_terminates (press : nat → bool) (fuel : nat) :
  ∀ p t, 30 - t ≤ Z.of_nat fuel → Task.waiting (Task.wait fuel press p t) = false.
Proof.
  induction fuel as [|fuel IH]; intros p t Hf.
  - cbn. apply andb_false_intro2. apply Z.ltb_ge. lia.
  - cbn [Task.wait]. destruct ((p =? 0) && (t <? 30)) eqn:Hc; [| exact Hc].
    specialize (IH (Task.proceedHandle (press (Z.to_nat (2 * t + 1)))
                     (Task.proceedHandle (press (Z.to_nat (2 * t))) p)) (t + 1)
                   ltac:(lia)).
    destruct (Task.wait fuel press _ (t + 1)) as [[tr p'] t']. exact IH.
Qed.

(** More fuel changes nothing. *)
Lemma wait_fuel_irrelevant (press : nat → bool) (fuel : nat) :
  ∀ p t extra, 30 - t ≤ Z.of_nat fuel →
    Task.wait (fuel + extra) press p t = Task.wait fuel press p t.
Proof.
  induction fuel as [|fuel IH]; intros p t extra Hf.
  - destruct extra; [done |]. cbn.
    replace (t <? 30) with false by (symmetry; apply Z.ltb_ge; lia).
    by rewrite andb_false_r.
  - cbn [Nat.add Task.wait]. destruct ((p =? 0) && (t <? 30)); [| done].
    by rewrite IH by lia.
Qed.

(** No press during the first 58 sleeps: the loop runs all thirty
    iterations, to [time = 30]; [proceed] is whatever the last two sleeps
    leave in it. *)
Lemma wait_runs_out (press : nat → bool) (fuel : nat) :
  ∀ t, 0 ≤ t → Z.of_nat fuel = 29 - t →
    (∀ n, (Z.to_nat (2 * t) ≤ n < 58)%nat → press n = false) →
    Task.wait (S fuel) press 0 t =
      (concat (repeat Task.pulse (S fuel)),
       Task.proceedHandle (press 59%nat) (Task.proceedHandle (press 58%nat) 0), 30).
Proof.
  induction fuel as [|fuel IH]; intros t Ht Hf Hp.
  - assert (t = 29) as -> by lia. reflexivity.
  - cbn [Task.wait repeat concat] in IH |- *.
    replace (t <? 30) with true by (symmetry; apply Z.ltb_lt; lia). cbn [Z.eqb andb].
    rewrite !Hp by lia. cbn [Task.proceedHandle].
    rewrite IH; [done | lia | lia |].
    intros n Hn. apply Hp. lia.
Qed.

(** A press during one of the first 58 sleeps (before 14.5 s) ends the
    loop with [proceed] set and [time] below 30. *)
Lemma wait_pressed_in_time (press : nat → bool) (fuel : nat) :
  ∀ t j, 0 ≤ t → 30 - t ≤ Z.of_nat fuel →
    (Z.to_nat (2 * t) ≤ j < 58)%nat → press j = true →
    ∃ tr t', Task.wait fuel press 0 t = (tr, 1, t') ∧ t < t' < 30 ∧
             occurrences is_process tr = O ∧ written tr = [].
Proof.
  induction fuel as [|fuel IH]; intros t j Ht Hf Hj Hp; [lia |].
  cbn [Task.wait].
  replace (t <? 30) with true by (symmetry; apply Z.ltb_lt; lia). cbn [Z.eqb andb].
  destruct (press (Z.to_nat (2 * t))) eqn:P0; cbn [Task.proceedHandle].
  { assert (Task.proceedHandle (press (Z.to_nat (2 * t + 1))) 1 = 1) as ->
      by (destruct (press (Z.to_nat (2 * t + 1))); reflexivity).
    rewrite wait_confirmed by done.
    eexists _, _. split; [done |]. repeat split; lia. }
  destruct (press (Z.to_nat (2 * t + 1))) eqn:P1; cbn [Task.proceedHandle].
  { rewrite wait_confirmed by done.
    eexists _, _. split; [done |]. repeat split; lia. }
  assert (Hj' : (Z.to_nat (2 * (t + 1)) ≤ j < 58)%nat).
  { destruct (decide (j = Z.to_nat (2 * t))) as [-> | ?]; [congruence |].
    destruct (decide (j = Z.to_nat (2 * t + 1))) as [-> | ?]; [congruence |]. lia. }
  destruct (IH (t + 1) j ltac:(lia) ltac:(lia) Hj' Hp) as (tr & t' & -> & Ht' & Hpr & Hw).
  eexists _, _. split; [done |].
  rewrite occurrences_app, written_app, Hpr, Hw. repeat split; lia.
Qed.

(** ** The confirmation gate *)

(** The bitwise [&] of the source is a logical conjunction here. *)
Lemma sensitive_spec (c : apdu_t) :
  Task.sensitive c = true ↔
  (Apdu.INS c = 0x88 ∨ Apdu.INS c = 0x2A) ∧ Apdu.CLA c ≠ 0x10.
Proof.
  unfold Task.sensitive.
  destruct (Z.eqb_spec (Apdu.CLA c) 0x10), (Z.eqb_spec (Apdu.INS c) 0x88),
    (Z.eqb_spec (Apdu.INS c) 0x2A); cbn; split; intros H;
    try discriminate H; try reflexivity; try tauto; try lia.
Qed.

Lemma sensitive_nonzero (c : apdu_t) : Task.sensitive c = true → Apdu.INS c ≠ 0.
Proof. rewrite sensitive_spec. lia. Qed.

(** The response the gate leaves behind on lockout. *)
Lemma lockout_bytes (o : outData) :
  OutData.bytes (OutData.set_length 2 (OutData.store 1 0x83 (OutData.store 0 0x69 o)))
  = [0x69; 0x83].
Proof. reflexivity. Qed.

(** No press during the first 58 sleeps: the gate locks out after thirty
    iterations, that is 15000 ms. *)
Lemma gate_locks (press : nat → bool) (st : Task.state) :
  (∀ n, (n < 58)%nat → press n = false) →
  ∃ p, Task.gate press st =
    ([StoreProceed 0] ++ concat (repeat Task.pulse 30) ++ [GpioSetLevel 26 1], true,
     Task.mk (OutData.set_length 2
                (OutData.store 1 0x83 (OutData.store 0 0x69 (Task.output st)))) p)
    ∧ (press 58%nat = false → press 59%nat = false → p = 0).
Proof.
  intros Hp. unfold Task.gate.
  rewrite (wait_runs_out press 29 0) by (try lia; intros n Hn; apply Hp; lia).
  cbn [Z.eqb Pos.eqb]. eexists. split; [reflexivity |].
  by intros -> ->.
Qed.

(** A press during one of the first 58 sleeps: the gate passes and leaves
    the response buffer alone. *)
Lemma gate_passes (press : nat → bool) (st : Task.state) (j : nat) :
  (j < 58)%nat → press j = true →
  ∃ tr, Task.gate press st = (tr, false, Task.mk (Task.output st) 1)
        ∧ occurrences is_process tr = O ∧ written tr = []
        ∧ In (StoreProceed 0) tr.
Proof.
  intros Hj Hp. unfold Task.gate.
  destruct (wait_pressed_in_time press 30 0 j) as (tr & t' & -> & Ht & Hpr & Hw);
    [lia | lia | lia | done |].
  replace (t' =? 30) with false by (symmetry; apply Z.eqb_neq; lia).
  eexists. split; [reflexivity |].
  rewrite !occurrences_app, !written_app, Hpr, Hw. repeat split. by left.
Qed.

(** The gate locks out exactly when the button is not pressed during the
    first 58 sleeps: a press during the last two (from 14.5 s on) comes too
    late for the test [time == 30]. *)
Lemma gate_locks_iff (press : nat → bool) (st : Task.state) :
  snd (fst (Task.gate press st)) = true ↔ ∀ n, (n < 58)%nat → press n = false.
Proof.
  split.
  - intros Hl n Hn. destruct (press n) eqn:Hp; [| done].
    destruct (gate_passes press st n Hn Hp) as (tr & Hg & _).
    rewrite Hg in Hl. discriminate Hl.
  - intros Hp. destruct (gate_locks press st Hp) as (p & -> & _). reflexivity.
Qed.

(** ** One session *)

(** A session in which a command with a non-zero instruction arrives. *)
Lemma session_command (e : Task.session_env) (st : Task.state) :
  0 ≤ Task.socket_ret e → Task.connect_ret e = 0 → Apdu.INS (Task.parsed e) ≠ 0 →
  Task.session e st =
    let '(tg, locked, st1) :=
      if Task.sensitive (Task.parsed e) then Task.gate (Task.press e) st
      else ([], false, st) in
    let '(tp, st2) := if locked then ([], st1) else Task.serve e st1 in
    let '(tw, nx) := Task.writeOutput e st2 in
    ([WaitBits; Socket; Connect (Task.env_currNet e); Read] ++ tg ++ tp ++ tw, nx, st2).
Proof.
  intros Hs Hc Hi. unfold Task.session.
  replace (Task.socket_ret e <? 0) with false by (symmetry; apply Z.ltb_ge; lia).
  rewrite Hc. cbn [Z.eqb negb].
  by replace (Apdu.INS (Task.parsed e) =? 0) with false by (symmetry; by apply Z.eqb_neq).
Qed.

(** [writeOutput] writes the first [length] bytes of the buffer, once. *)
Lemma writeOutput_written (e : Task.session_env) (st : Task.state) :
  written (fst (Task.writeOutput e st)) = [OutData.bytes (Task.output st)]
  ∧ occurrences is_process (fst (Task.writeOutput e st)) = O
  ∧ occurrences is_store_proceed (fst (Task.writeOutput e st)) = O.
Proof. unfold Task.writeOutput. by destruct (Task.write_ret e <? 0). Qed.

(** C1. A sensitive command during whose wait the button is never pressed
    (none of the sixty 250 ms sleeps sees the interrupt): the gate runs its
    thirty iterations, 15000 ms in all, and locks out; the session writes
    exactly the two bytes 69 83, the response length is 2, and [process] is
    never called. *)
Theorem lockout_when_never_confirmed (e : Task.session_env) (st : Task.state) :
  0 ≤ Task.socket_ret e → Task.connect_ret e = 0 →
  Task.sensitive (Task.parsed e) = true →
  (∀ n, (n < 60)%nat → Task.press e n = false) →
  let g := Task.gate (Task.press e) st in
  let r := Task.session e st in
  snd (fst g) = true
  ∧ fst (fst g) = [StoreProceed 0] ++ concat (repeat Task.pulse 30) ++ [GpioSetLevel 26 1]
  ∧ delayed (fst (fst g)) = 15000
  ∧ fst (fst r) = [WaitBits; Socket; Connect (Task.env_currNet e); Read]
                  ++ fst (fst g) ++ fst (Task.writeOutput e (snd r))
  ∧ written (fst (fst r)) = [[0x69; 0x83]]
  ∧ OutData.length (Task.output (snd r)) = 2
  ∧ occurrences is_process (fst (fst r)) = O.
Proof.
  intros Hs Hc Hsens Hp g r. subst g r.
  rewrite session_command by (try done; by apply sensitive_nonzero).
  rewrite Hsens.
  destruct (gate_locks (Task.press e) st) as (p & -> & _);
    [intros n Hn; apply Hp; lia |].
  cbn [fst snd].
  destruct (Task.writeOutput e _) as [tw nx] eqn:Hw.
  pose proof (writeOutput_written e
    (Task.mk (OutData.set_length 2
       (OutData.store 1 0x83 (OutData.store 0 0x69 (Task.output st)))) p)) as (Hwr & Hpr & _).
  rewrite Hw in Hwr, Hpr. cbn [fst snd Task.output] in Hwr, Hpr |- *.
  rewrite lockout_bytes in Hwr.
  split_and!; try reflexivity.
  - by rewrite Hw.
  - rewrite !written_app, pulses_written, Hwr. reflexivity.
  - rewrite !occurrences_app, Hpr, pulses_quiet by reflexivity. reflexivity.
Qed.

(** A signing command (2A, class 00), the button left alone. *)
Lemma lockout_when_never_confirmed_witness :
  let e := Examples.peer 0x00 0x2A Examples.never 2 in
  let r := Task.session e Examples.st0 in
  written (fst (fst r)) = [[0x69; 0x83]]
  ∧ OutData.length (Task.output (snd r)) = 2
  ∧ occurrences is_process (fst (fst r)) = O.
Proof.
  pose proof (lockout_when_never_confirmed
    (Examples.peer 0x00 0x2A Examples.never 2) Examples.st0
    ltac:(cbn; lia) eq_refl eq_refl (fun n _ => eq_refl)) as H.
  cbv zeta in H |- *. destruct H as (_ & _ & _ & _ & Hw & Hl & Hn). auto.
Defined.

(** A sensitive command confirmed during one of the first 58 sleeps (before
    14.5 s): the gate passes and [process] is called exactly once, on the
    command received; what it leaves in the buffer is written. *)
Lemma processed_once_when_confirmed_early
    (e : Task.session_env) (st : Task.state) (j : nat) :
  0 ≤ Task.socket_ret e → Task.connect_ret e = 0 →
  Task.sensitive (Task.parsed e) = true →
  (j < 58)%nat → Task.press e j = true →
  let r := Task.session e st in
  snd (fst (Task.gate (Task.press e) st)) = false
  ∧ occurrences is_process (fst (fst r)) = 1%nat
  ∧ In (Process (Task.parsed e)) (fst (fst r))
  ∧ written (fst (fst r)) = [OutData.bytes (Task.process_out e (Task.output st))].
Proof.
  intros Hs Hc Hsens Hj Hp r. subst r.
  rewrite session_command by (try done; by apply sensitive_nonzero).
  rewrite Hsens.
  destruct (gate_passes (Task.press e) st j Hj Hp) as (tg & -> & Hpr & Hw & _).
  cbn [fst snd Task.serve Task.output Task.proceed].
  destruct (Task.writeOutput e _) as [tw nx] eqn:Ho.
  pose proof (writeOutput_written e
    (Task.mk (Task.process_out e (Task.output st)) 1)) as (Hwr & Hpw & _).
  rewrite Ho in Hwr, Hpw. cbn [fst snd Task.output] in Hwr, Hpw |- *.
  split_and!; try reflexivity.
  - rewrite !occurrences_app, Hpr, Hpw. reflexivity.
  - rewrite !in_app_iff. right. right. left. cbn. auto.
  - rewrite !written_app, Hw, Hwr. reflexivity.
Qed.

(** C2, at the failing input.  An authentication command (88, class 00);
    the button is pressed once, during the last 250 ms sleep of the wait,
    that is between 14.75 s and the 15 s deadline.  The loop ends with
    [proceed = 1] and [time = 30], the test [time == 30] takes it for a
    timeout: the lockout bytes are written and [process] is not called. *)
Theorem press_in_last_sleep_is_locked_out :
  let e := Examples.peer 0x00 0x88 (Examples.only_at 59) 2 in
  let r := Task.session e Examples.st0 in
  Task.sensitive (Task.parsed e) = true
  ∧ Task.press e 59%nat = true
  ∧ Task.proceed (snd r) = 1
  ∧ snd (fst (Task.gate (Task.press e) Examples.st0)) = true
  ∧ written (fst (fst r)) = [[0x69; 0x83]]
  ∧ occurrences is_process (fst (fst r)) = O.
Proof. vm_compute. by split_and!. Qed.

(** C3, as amended.  For a command that was received: the gate is entered
    (the store [proceed = 0] that opens it is in the trace) if and only if
    the instruction byte is 88 or 2A and the class byte is not 10.  Every
    other command with a non-zero instruction byte goes from the read
    straight to [process]; one with instruction byte 00 reaches neither the
    gate nor [process]. *)
Theorem gate_entered_iff_sensitive (e : Task.session_env) (st : Task.state) :
  0 ≤ Task.socket_ret e → Task.connect_ret e = 0 →
  let c := Task.parsed e in
  let tr := fst (fst (Task.session e st)) in
  let sens := (Apdu.INS c = 0x88 ∨ Apdu.INS c = 0x2A) ∧ Apdu.CLA c ≠ 0x10 in
  (In (StoreProceed 0) tr ↔ sens)
  ∧ (¬ sens → Apdu.INS c ≠ 0x00 →
       tr = [WaitBits; Socket; Connect (Task.env_currNet e); Read;
             GpioSetLevel 25 1; Process c; GpioSetLevel 25 0]
            ++ fst (Task.writeOutput e (snd (Task.serve e st))))
  ∧ (Apdu.INS c = 0x00 →
       occurrences is_store_proceed tr = O ∧ occurrences is_process tr = O).
Proof.
  intros Hs Hc c tr sens. subst c tr sens. rewrite <- sensitive_spec.
  destruct (Z.eq_dec (Apdu.INS (Task.parsed e)) 0) as [Hz | Hnz].
  - (* instruction 00: the session is closed before the gate *)
    assert (Hns : Task.sensitive (Task.parsed e) = false).
    { destruct (Task.sensitive _) eqn:E; [| done]. by apply sensitive_nonzero in E. }
    unfold Task.session.
    replace (Task.socket_ret e <? 0) with false by (symmetry; apply Z.ltb_ge; lia).
    rewrite Hc, Hz, Hns. cbn. split_and!; try done.
    split; [| done]. intros H. repeat (destruct H as [H | H]; [discriminate H |]). done.
  - rewrite session_command by done.
    destruct (Task.sensitive (Task.parsed e)) eqn:Hsens.
    + (* sensitive: the gate opens with the store *)
      split_and!; try done. split; [done |]. intros _.
      unfold Task.gate. destruct (Task.wait 30 _ 0 0) as [[tw p] t].
      destruct (t =? 30); cbn [Task.serve];
        match goal with
        | |- context [Task.writeOutput e ?s] => destruct (Task.writeOutput e s)
        end; cbn; auto 10.
    + cbn [Task.serve]. destruct (Task.writeOutput e _) as [tw nx] eqn:Ho.
      cbn [fst snd]. split_and!; try done.
      split; [| done]. intros H. exfalso.
      unfold Task.writeOutput in Ho.
      destruct (Task.write_ret e <? 0); inversion Ho; subst tw; cbn in H;
        repeat (destruct H as [H | H]; [discriminate H |]); done.
Qed.

(** A chained signing command (2A, class 10) goes straight to [process]. *)
Lemma gate_entered_iff_sensitive_witness :
  let e := Examples.peer 0x10 0x2A Examples.never 2 in
  ¬ In (StoreProceed 0) (fst (fst (Task.session e Examples.st0)))
  ∧ occurrences is_process (fst (fst (Task.session e Examples.st0))) = 1%nat.
Proof.
  pose proof (gate_entered_iff_sensitive
    (Examples.peer 0x10 0x2A Examples.never 2) Examples.st0
    ltac:(cbn; lia) eq_refl) as (Hiff & _ & _).
  cbv zeta. split; [| reflexivity].
  intros H. apply Hiff in H. cbn in H. lia.
Defined.

(** C3, as stated, fails on a command with instruction byte 00: it is not
    sensitive and does not enter the gate, yet it does not proceed to
    [process] either. *)
Lemma zero_instruction_is_not_processed :
  let e := Examples.peer 0x00 0x00 Examples.never 2 in
  let tr := fst (fst (Task.session e Examples.st0)) in
  Task.sensitive (Task.parsed e) = false
  ∧ occurrences is_store_proceed tr = O
  ∧ occurrences is_process tr = O.
Proof. vm_compute. by split_and!. Qed.

(** ** The session loop *)

(** Every session starts at the blocking wait for connectivity. *)
Lemma session_starts_waiting (e : Task.session_env) (st : Task.state) :
  ∃ tl, fst (fst (Task.session e st)) = WaitBits :: tl.
Proof.
  unfold Task.session.
  destruct (Task.socket_ret e <? 0); [by eexists |].
  destruct (negb (Task.connect_ret e =? 0)); [by eexists |].
  destruct (Apdu.INS (Task.parsed e) =? 0); [by eexists |].
  destruct (if Task.sensitive _ then _ else _) as [[tg locked] st1].
  destruct (if locked then _ else _) as [tp st2].
  destruct (Task.writeOutput e st2) as [tw nx]. by eexists.
Qed.

Lemma loop_starts_waiting (e : Task.session_env) (es : list Task.session_env)
    (st : Task.state) :
  ∃ tl, fst (Task.loop (e :: es) st) = WaitBits :: tl.
Proof.
  destruct (session_starts_waiting e st) as (tl & Htl). cbn [Task.loop].
  destruct (Task.session e st) as [[tr nx] st1]. cbn [fst] in Htl. subst tr.
  destruct nx; [destruct (Task.loop es st1) .. |]; by eexists.
Qed.

(** C9. A received command whose instruction byte is 00: the session is
    [invalidate(); close(sockfd); goto begin], nothing is written to the
    connection, and the next thing the loop does is wait for connectivity
    again. *)
Theorem zero_instruction_closes_silently
    (e : Task.session_env) (st : Task.state) :
  0 ≤ Task.socket_ret e → Task.connect_ret e = 0 →
  Apdu.INS (Task.parsed e) = 0x00 →
  let tr := [WaitBits; Socket; Connect (Task.env_currNet e); Read; Invalidate; Close] in
  Task.session e st = (tr, Task.GotoBegin, st)
  ∧ written tr = []
  ∧ occurrences is_write tr = O
  ∧ (∀ es, Task.loop (e :: es) st = (tr ++ fst (Task.loop es st), snd (Task.loop es st)))
  ∧ (∀ e' es, ∃ tl, fst (Task.loop (e :: e' :: es) st) = tr ++ WaitBits :: tl).
Proof.
  intros Hs Hc Hz tr.
  assert (Hses : Task.session e st = (tr, Task.GotoBegin, st)).
  { unfold Task.session.
    replace (Task.socket_ret e <? 0) with false by (symmetry; apply Z.ltb_ge; lia).
    by rewrite Hc, Hz. }
  assert (Hloop : ∀ es, Task.loop (e :: es) st
                        = (tr ++ fst (Task.loop es st), snd (Task.loop es st))).
  { intros es. cbn [Task.loop]. rewrite Hses. by destruct (Task.loop es st). }
  split_and!; try done.
  intros e' es. rewrite Hloop. cbn [fst].
  destruct (loop_starts_waiting e' es st) as (tl & ->). by exists tl.
Qed.

Lemma zero_instruction_closes_silently_witness :
  let e := Examples.peer 0x00 0x00 Examples.never 2 in
  Task.session e Examples.st0 =
    ([WaitBits; Socket; Connect 0; Read; Invalidate; Close], Task.GotoBegin, Examples.st0).
Proof.
  exact (proj1 (zero_instruction_closes_silently
    (Examples.peer 0x00 0x00 Examples.never 2) Examples.st0
    ltac:(cbn; lia) eq_refl eq_refl)).
Defined.

(** C4, as amended.  When the write of the response fails, the session
    waits a second, closes the connection and goes to [exit]: the loop ends
    in the controlled restart, whatever sessions would have followed. *)
Theorem write_failure_restarts
    (e : Task.session_env) (es : list Task.session_env) (st : Task.state) :
  0 ≤ Task.socket_ret e → Task.connect_ret e = 0 →
  Apdu.INS (Task.parsed e) ≠ 0x00 →
  Task.write_ret e < 0 →
  snd (fst (Task.session e st)) = Task.GotoExit
  ∧ ∃ pre bs, Task.loop (e :: es) st =
      (pre ++ [SockWrite bs; TaskDelay 1000; Close]
           ++ [TaskDelay 1000; TaskDelay 1000; TaskDelay 1000; UnmountFS; EspRestart],
       None).
Proof.
  intros Hs Hc Hnz Hw. cbn [Task.loop].
  rewrite session_command by done.
  destruct (if Task.sensitive _ then _ else _) as [[tg locked] st1].
  destruct (if locked then _ else _) as [tp st2].
  unfold Task.writeOutput.
  replace (Task.write_ret e <? 0) with true by (symmetry; apply Z.ltb_lt; lia).
  split; [done |].
  exists ([WaitBits; Socket; Connect (Task.env_currNet e); Read] ++ tg ++ tp).
  eexists. cbn [snd fst]. f_equal.
  rewrite <- !app_assoc. reflexivity.
Qed.

Lemma write_failure_restarts_witness :
  let e := Examples.peer 0x00 0x84 Examples.never (-1) in
  snd (fst (Task.session e Examples.st0)) = Task.GotoExit.
Proof.
  exact (proj1 (write_failure_restarts
    (Examples.peer 0x00 0x84 Examples.never (-1)) [] Examples.st0
    ltac:(cbn; lia) eq_refl ltac:(cbn; lia) ltac:(cbn; lia))).
Defined.

(** C4, as stated, fails: a challenge request (84) is processed, the write
    of the response fails, and the loop does not return to the wait for
    connectivity (the second session is never started) but restarts the
    device. *)
Lemma write_failure_is_fatal :
  let e := Examples.peer 0x00 0x84 Examples.never (-1) in
  let r := Task.loop [e; e] Examples.st0 in
  snd (fst (Task.session e Examples.st0)) = Task.GotoExit
  ∧ snd r = None
  ∧ occurrences is_restart (fst r) = 1%nat
  ∧ occurrences (fun c => match c with WaitBits => true | _ => false end) (fst r) = 1%nat.
Proof. vm_compute. by split_and!. Qed.

(** ** Provisioning at boot, and the fatal conditions *)

Ltac prologue_cases be err :=
  unfold Task.prologue;
  destruct (Z.eqb_spec (Task.nvs_open_ret be) ESP_OK);
  destruct (Z.eqb_spec err ESP_OK);
  destruct (Z.eqb_spec err ESP_ERR_NVS_NOT_FOUND);
  destruct (Z.eqb_spec (Task.restoreState_ret be) 0);
  destruct (Z.eqb_spec (Task.initialize_ret be) 0);
  cbn [negb fst snd].

(** Without a fault, the read reports "not found" exactly when the key is
    not in the store, and succeeds exactly when it is. *)
Lemma read_err_regular (be : Task.boot_env) (nvs : gmap string Z) :
  Task.nvs_get_fault be = None →
  (Task.read_err be nvs = ESP_ERR_NVS_NOT_FOUND ↔ nvs !! "initialized" = None)
  ∧ (Task.read_err be nvs = ESP_OK ↔ is_Some (nvs !! "initialized")).
Proof.
  intros Hf. unfold Task.read_err, Nvs.nvs_get_u8, Nvs.with_fault. rewrite Hf.
  destruct (nvs !! "initialized"); cbn; split; split; try done.
  all: by intros [? ?].
Qed.

(** The prologue fails exactly on the four fatal provisioning conditions. *)
Lemma prologue_fails_iff (be : Task.boot_env) (nvs : gmap string Z) (h : Z) :
  snd (fst (Task.prologue be nvs h)) = false ↔
    Task.nvs_open_ret be ≠ ESP_OK
    ∨ (Task.read_err be nvs ≠ ESP_OK ∧ Task.read_err be nvs ≠ ESP_ERR_NVS_NOT_FOUND)
    ∨ (Task.read_err be nvs = ESP_OK ∧ Task.restoreState_ret be ≠ 0)
    ∨ (Task.read_err be nvs = ESP_ERR_NVS_NOT_FOUND ∧ Task.initialize_ret be ≠ 0).
Proof.
  remember (Task.read_err be nvs) as err eqn:Herr.
  unfold Task.prologue. rewrite <- Herr. clear Herr.
  prologue_cases be err; split; intros H; try done; try tauto;
    unfold ESP_OK, ESP_ERR_NVS_NOT_FOUND in *; lia.
Qed.

(** C7. At boot [taskConnect] reads the key "initialized" and branches on
    the error code of the read: "not found" calls [initialize] (and not
    [restoreState]); success calls [restoreState] (and not [initialize]);
    any other failure calls neither.  The loop is entered only when the
    procedure called returns 0.  In every other case the task goes to the
    controlled restart (what it does after the prologue is: three delays
    of one second, the unmount of the storage, the restart of the device,
    and nothing more) and none of the calls of the session loop (wait for
    connectivity, socket, connect, read, process, write) is ever made. *)
Theorem provisioning_at_boot
    (be : Task.boot_env) (nvs : gmap string Z) (h : Z)
    (es : list Task.session_env) (st : Task.state) :
  let err := Task.read_err be nvs in
  let tr := fst (fst (Task.prologue be nvs h)) in
  let ready := snd (fst (Task.prologue be nvs h)) in
  (Task.nvs_open_ret be = ESP_OK → err = ESP_ERR_NVS_NOT_FOUND →
     occurrences is_initialize tr = 1%nat ∧ occurrences is_restore tr = O
     ∧ (ready = true ↔ Task.initialize_ret be = 0))
  ∧ (Task.nvs_open_ret be = ESP_OK → err = ESP_OK →
     occurrences is_restore tr = 1%nat ∧ occurrences is_initialize tr = O
     ∧ (ready = true ↔ Task.restoreState_ret be = 0))
  ∧ (Task.nvs_open_ret be ≠ ESP_OK ∨ (err ≠ ESP_OK ∧ err ≠ ESP_ERR_NVS_NOT_FOUND) →
     ready = false ∧ occurrences is_initialize tr = O ∧ occurrences is_restore tr = O)
  ∧ (ready = false →
     Task.taskConnect be nvs h es st
     = (tr ++ [TaskDelay 1000; TaskDelay 1000; TaskDelay 1000; UnmountFS; EspRestart],
        None)
     ∧ occurrences is_serving (fst (Task.taskConnect be nvs h es st)) = O
     ∧ occurrences is_restart (fst (Task.taskConnect be nvs h es st)) = 1%nat
     ∧ occurrences is_unmount (fst (Task.taskConnect be nvs h es st)) = 1%nat
     ∧ delayed (fst (Task.taskConnect be nvs h es st)) = 3000)
  ∧ (ready = true →
     Task.taskConnect be nvs h es st
     = (tr ++ fst (Task.loop es st), snd (Task.loop es st))).
Proof.
  intros err tr ready. subst tr ready. unfold Task.taskConnect.
  destruct (Task.loop es st) as [tl rl].
  unfold Task.prologue. fold err. generalize err. clear err. intros err.
  destruct (Z.eqb_spec (Task.nvs_open_ret be) ESP_OK);
  destruct (Z.eqb_spec err ESP_OK);
  destruct (Z.eqb_spec err ESP_ERR_NVS_NOT_FOUND);
  destruct (Z.eqb_spec (Task.restoreState_ret be) 0);
  destruct (Z.eqb_spec (Task.initialize_ret be) 0);
  cbn [negb fst snd]; unfold ESP_OK, ESP_ERR_NVS_NOT_FOUND in *;
  split_and!; intros; try done; try lia; split_and?; try done;
    try (split; intros; (done || lia)); try (destruct H; lia).
Qed.

(** C8, as stated, fails on the mount failure: [app_main] ends in [exit(0)]
    with no countdown, no unmount and no restart. *)
Lemma mount_failure_is_not_a_controlled_restart :
  let tr := Main.app_main (-1) in
  tr = [InitGPIO; InitNVS; MountFS; Exit 0]
  ∧ occurrences is_restart tr = O
  ∧ occurrences is_unmount tr = O
  ∧ occurrences is_task_create tr = O
  ∧ delayed tr = 0.
Proof. vm_compute. by split_and!. Qed.

(** ** The device: who erases the provisioning key *)

Lemma run_cons (a : Device.action) (acts : list Device.action) (s : Device.sys) :
  fst (Device.run (a :: acts) s) = fst (Device.run acts (fst (Device.step a s))).
Proof.
  cbn [Device.run]. destruct (Device.step a s) as [s1 tr1]. cbn [fst].
  by destruct (Device.run acts s1).
Qed.

(** The erase never succeeds on a key that is not there, and leaves the
    store alone when it fails. *)
Lemma erase_absent (fault : option Z) (nvs : gmap string Z) (key : string) :
  nvs !! key = None →
  fst (Nvs.nvs_erase_key fault nvs key) ≠ ESP_OK
  ∧ snd (Nvs.nvs_erase_key fault nvs key) = nvs.
Proof.
  intros Hk. unfold Nvs.nvs_erase_key, Nvs.with_fault. rewrite Hk.
  destruct fault as [err |]; [destruct (Z.eqb_spec err ESP_OK) |]; done.
Qed.

(** One poll of the monitor keeps the store unless the flag is set. *)
Lemma poll_keeps_store (e : Reset.poll_env) (h : Z) (nvs : gmap string Z) :
  h ≠ 1 → Reset.poll e h nvs = ([TaskDelay 4000], nvs, false).
Proof. intros Hh. unfold Reset.poll. by destruct (Z.eqb_spec h 1). Qed.

(** The prologue never removes a key: it either leaves the store alone or,
    after a successful [initialize], adds the key. *)
Lemma boot_keeps_key (e : Task.boot_env) (s : Device.sys) :
  is_Some (Device.nvs s !! "initialized") →
  is_Some (Device.nvs (fst (Device.step (Device.Boot e) s)) !! "initialized").
Proof.
  intros Hk. cbn [Device.step]. destruct (Device.task s); try done.
  destruct (Task.prologue e (Device.nvs s) (Device.hardRst s)) as [[tb ready] h].
  cbn [fst Device.nvs]. destruct (existsb is_initialize tb); [| done].
  unfold Device.initialize_persist. destruct (Task.initialize_ret e =? 0); [| done].
  rewrite lookup_insert_eq. by eexists.
Qed.

(** Only two actions erase the key: a poll of the monitor that sees the
    flag set, and an [initNVS] that erases the partition. *)
Lemma erases_is_poll (a : Device.action) (s : Device.sys) :
  Device.erases a s →
  ((∃ e, a = Device.Poll e) ∧ Device.hardRst s = 1)
  ∨ (∃ e, a = Device.AppInit e ∧ Device.task s = Device.Booting
          ∧ Startup.wipes e = true).
Proof.
  intros [Hsome Hnone]. destruct a as [| | e | e | | e | e].
  - cbn in Hnone. rewrite Hnone in Hsome. by destruct Hsome.
  - cbn in Hnone. rewrite Hnone in Hsome. by destruct Hsome.
  - apply (boot_keeps_key e) in Hsome. rewrite Hnone in Hsome. by destruct Hsome.
  - cbn [Device.step] in Hnone.
    destruct (Device.task s), (Task.session e (Device.conn s)) as [[tr nx] st];
      cbn in Hnone; rewrite Hnone in Hsome; by destruct Hsome.
  - cbn [Device.step] in Hnone. destruct (Device.task s); cbn in Hnone;
      rewrite Hnone in Hsome; by destruct Hsome.
  - left. split; [by eexists |].
    destruct (Z.eq_dec (Device.hardRst s) 1) as [|Hh]; [done |]. exfalso.
    cbn [Device.step] in Hnone. rewrite poll_keeps_store in Hnone by done.
    cbn in Hnone. rewrite Hnone in Hsome. by destruct Hsome.
  - right. exists e. cbn [Device.step] in Hnone.
    destruct (Device.task s) eqn:Ht;
      try (cbn in Hnone; rewrite Hnone in Hsome; by destruct Hsome).
    destruct (Startup.wipes e) eqn:Hw; [done |]. exfalso.
    destruct (snd (Startup.initNVS e)); cbn in Hnone;
      rewrite Hnone in Hsome; by destruct Hsome.
Qed.

(** A step after which the flag is set either found it set or stored it;
    the only stores are the button handler and the prologue after a failed
    [restoreState]. *)
Lemma flag_set_by (a : Device.action) (s : Device.sys) :
  Device.hardRst (fst (Device.step a s)) = 1 →
  Device.hardRst s = 1
  ∨ (Device.sets_hardRst a s
     ∧ (a = Device.HardResetButton
        ∨ ∃ e, a = Device.Boot e ∧ Task.restoreState_ret e ≠ 0)).
Proof.
  unfold Device.sets_hardRst. destruct a as [| | e | e | | e | e]; cbn [Device.step].
  - intros _. right. split; [by left | by left].
  - cbn. auto.
  - destruct (Device.task s); cbn; auto.
    remember (Task.read_err e (Device.nvs s)) as err eqn:Herr.
    unfold Task.prologue. rewrite <- Herr. clear Herr.
    prologue_cases e err; cbn; auto.
    all: intros _; right; split; [auto 10 | right; by exists e].
  - destruct (Device.task s); cbn; auto.
    destruct (Task.session e (Device.conn s)) as [[tr nx] st]. cbn. auto.
  - destruct (Device.task s); cbn; auto. discriminate.
  - destruct (Reset.poll e (Device.hardRst s) (Device.nvs s)) as [[tr nvs'] restarted].
    destruct restarted; cbn; auto. discriminate.
  - destruct (Device.task s); cbn; auto.
    destruct (snd (Startup.initNVS e)); cbn; auto. discriminate.
Qed.

(** If the flag is set after a run that started with the flag clear, some
    action of the run stored it. *)
Lemma flag_has_a_setter (pre : list Device.action) :
  ∀ s0, Device.hardRst (fst (Device.run pre s0)) = 1 →
    Device.hardRst s0 = 1
    ∨ ∃ pre1 b pre2, pre = pre1 ++ b :: pre2
        ∧ Device.sets_hardRst b (fst (Device.run pre1 s0))
        ∧ (b = Device.HardResetButton
           ∨ ∃ e, b = Device.Boot e ∧ Task.restoreState_ret e ≠ 0).
Proof.
  induction pre as [|a pre IH]; intros s0 Hh; [by left |].
  rewrite run_cons in Hh. destruct (IH _ Hh) as [H1 | (pre1 & b & pre2 & -> & Hset & Hb)].
  - destruct (flag_set_by a s0 H1) as [? | [Hset Ha]]; [by left |].
    right. by exists [], a, pre.
  - right. exists (a :: pre1), b, pre2. by rewrite run_cons.
Qed.

(** The partition erase is called exactly when [initNVS] finds no free
    pages and finds the partition. *)
Lemma wipes_iff_erase_called (e : Startup.nvs_env) :
  Startup.wipes e = true ↔
  Startup.count Startup.is_erase_range (fst (Startup.initNVS e)) = 1%nat.
Proof.
  unfold Startup.wipes, Startup.initNVS.
  destruct (Startup.first_init e =? Startup.ESP_ERR_NVS_NO_FREE_PAGES),
    (Startup.partition_found e), (negb (Startup.erase_ret e =? ESP_OK)); by cbn.
Qed.

(** C5, as amended.  In every execution from a state with the flag clear,
    an action that erases the key "initialized" is one of two.  Either it is
    a poll of the reset monitor, made while [hardRst] is 1, and an earlier
    action of the execution stored that 1, which was the hard-reset button
    handler or the prologue of [taskConnect] after [restoreState] failed.
    Or it is the [initNVS] of a boot whose first [nvs_flash_init] reported
    that there are no free pages, which erases the whole NVS partition.
    Nothing else erases the key. *)
Theorem key_erased_by_monitor_or_initNVS
    (pre : list Device.action) (a : Device.action) (s0 : Device.sys) :
  Device.hardRst s0 = 0 →
  Device.erases a (fst (Device.run pre s0)) →
  ((∃ e, a = Device.Poll e)
   ∧ Device.hardRst (fst (Device.run pre s0)) = 1
   ∧ ∃ pre1 b pre2, pre = pre1 ++ b :: pre2
       ∧ Device.sets_hardRst b (fst (Device.run pre1 s0))
       ∧ (b = Device.HardResetButton
          ∨ ∃ e, b = Device.Boot e ∧ Task.restoreState_ret e ≠ 0))
  ∨ (∃ e, a = Device.AppInit e
       ∧ Device.task (fst (Device.run pre s0)) = Device.Booting
       ∧ Startup.first_init e = Startup.ESP_ERR_NVS_NO_FREE_PAGES
       ∧ Startup.partition_found e = true
       ∧ Startup.count Startup.is_erase_range (fst (Startup.initNVS e)) = 1%nat).
Proof.
  intros H0 He. destruct (erases_is_poll _ _ He) as [[Hpoll Hh] | (e & -> & Ht & Hw)].
  - left. split_and!; try done.
    destruct (flag_has_a_setter pre s0 Hh) as [H1 | ?]; [lia | done].
  - right. exists e. split_and!; try done.
    + unfold Startup.wipes in Hw. apply andb_prop in Hw as [Hw _].
      by apply Z.eqb_eq in Hw.
    + unfold Startup.wipes in Hw. by apply andb_prop in Hw as [_ Hw].
    + by apply wipes_iff_erase_called.
Qed.

(** The button is pressed on a provisioned device; the next poll erases. *)
Lemma key_erased_by_monitor_or_initNVS_witness :
  let s0 := Device.power_on Examples.buffer0 Examples.provisioned in
  let pre := [Device.AppInit Examples.nvs_in_order;
              Device.Boot (Examples.boots 0 0); Device.HardResetButton] in
  ((∃ e, Device.Poll Examples.polls = Device.Poll e)
   ∧ Device.hardRst (fst (Device.run pre s0)) = 1
   ∧ ∃ pre1 b pre2, pre = pre1 ++ b :: pre2
       ∧ Device.sets_hardRst b (fst (Device.run pre1 s0))
       ∧ (b = Device.HardResetButton
          ∨ ∃ e, b = Device.Boot e ∧ Task.restoreState_ret e ≠ 0))
  ∨ (∃ e, Device.Poll Examples.polls = Device.AppInit e
       ∧ Device.task (fst (Device.run pre s0)) = Device.Booting
       ∧ Startup.first_init e = Startup.ESP_ERR_NVS_NO_FREE_PAGES
       ∧ Startup.partition_found e = true
       ∧ Startup.count Startup.is_erase_range (fst (Startup.initNVS e)) = 1%nat).
Proof.
  apply (key_erased_by_monitor_or_initNVS
    [Device.AppInit Examples.nvs_in_order;
     Device.Boot (Examples.boots 0 0); Device.HardResetButton]
    (Device.Poll Examples.polls)
    (Device.power_on Examples.buffer0 Examples.provisioned));
    [reflexivity | split; [by eexists | reflexivity]].
Defined.

(** The other eraser at work: a provisioned device boots, [initNVS] finds
    the partition without free pages and erases it; the key is gone, with
    the flag clear and no poll of the monitor involved, and the prologue
    that follows calls [initialize]. *)
Example initNVS_erases_the_key :
  let s0 := Device.power_on Examples.buffer0 Examples.provisioned in
  let s1 := fst (Device.step (Device.AppInit Examples.nvs_full) s0) in
  Device.nvs s0 !! "initialized" = Some 1
  ∧ Device.hardRst s0 = 0
  ∧ Device.nvs s1 !! "initialized" = None
  ∧ fst (Startup.initNVS Examples.nvs_full)
    = [Startup.NvsFlashInit; Startup.PartitionFindFirst;
       Startup.PartitionEraseRange; Startup.NvsFlashInit]
  ∧ occurrences is_initialize
      (snd (Device.step (Device.Boot (Examples.boots 0 0)) s1)) = 1%nat.
Proof. cbv zeta. split_and!; reflexivity. Qed.

(** C5, as stated, fails.  A provisioned device boots, [restoreState] fails
    and the prologue stores 1 into [hardRst]; the monitor polls before the
    countdown of the exit path is over and erases the key.  The hard-reset
    button was never pressed. *)
Lemma restore_failure_erases_the_key :
  let acts := [Device.Boot (Examples.boots 1 0); Device.Poll Examples.polls] in
  let s0 := Device.power_on Examples.buffer0 Examples.provisioned in
  let s1 := fst (Device.run [Device.Boot (Examples.boots 1 0)] s0) in
  existsb Device.is_hard_reset_button acts = false
  ∧ Device.nvs s1 !! "initialized" = Some 1
  ∧ Device.hardRst s1 = 1
  ∧ Device.nvs (fst (Device.step (Device.Poll Examples.polls) s1)) !! "initialized" = None
  ∧ snd (Device.run acts s0) =
      [GpioSetLevel 25 1; NvsOpen; NvsGetU8 "initialized"; NvsClose; RestoreState;
       StoreHardRst 1; NvsOpen; NvsEraseKey "initialized"; UnmountFS; EspRestart].
Proof. cbv zeta. split_and!; reflexivity. Qed.

(** ** The reset monitor without a key to erase *)

(** With the flag set and the key absent, a poll changes nothing and sleeps. *)
Lemma poll_without_key (e : Reset.poll_env) (s : Device.sys) :
  Device.hardRst s = 1 → Device.nvs s !! "initialized" = None →
  Device.step (Device.Poll e) s = (s, Reset.retry e).
Proof.
  intros Hh Hk. destruct s as [h c nvs t]. cbn in Hh, Hk. subst h.
  cbn [Device.step Device.hardRst Device.nvs Device.conn Device.task].
  unfold Reset.poll, Reset.retry. cbn [Z.eqb Pos.eqb].
  destruct (Reset.open_ret e =? ESP_OK); [| done].
  destruct (erase_absent (Reset.erase_fault e) nvs "initialized" Hk) as [Herr Hnvs].
  destruct (Nvs.nvs_erase_key _ nvs "initialized") as [err nvs'].
  cbn [fst snd] in Herr, Hnvs. subst nvs'.
  by destruct (Z.eqb_spec err ESP_OK).
Qed.

(** The same on the loop of [checkReset] itself: with the flag read as 1
    at every iteration and the key absent, the loop never restarts. *)
Lemma checkReset_without_key (es : list Reset.poll_env) (nvs : gmap string Z) :
  nvs !! "initialized" = None →
  Reset.checkReset (map (fun e => (1, e)) es) nvs
  = (concat (map Reset.retry es), nvs, false).
Proof.
  intros Hk. induction es as [|e es IH]; [done |].
  cbn [map Reset.checkReset concat].
  pose proof (poll_without_key e (Device.mk 1 Examples.st0 nvs Device.Serving)
                eq_refl Hk) as Hp.
  cbn [Device.step Device.hardRst Device.nvs] in Hp.
  destruct (Reset.poll e 1 nvs) as [[tr nvs'] restarted].
  destruct restarted; inversion Hp; subst. by rewrite IH.
Qed.

Lemma retry_sleeps (e : Reset.poll_env) :
  delayed (Reset.retry e) = 4000 ∧ occurrences is_restart (Reset.retry e) = O.
Proof. unfold Reset.retry. by destruct (Reset.open_ret e =? ESP_OK). Qed.

(** C10. The flag is set and the key "initialized" is not in the store.
    Then the erase fails (whatever else goes wrong with it), and over any
    number of polls the monitor leaves the device state as it is (the flag
    stays 1, the key stays absent), tries the erase again at every poll
    at which the store opens, sleeps 4000 ms after each, and never gets to
    the restart. *)
Theorem monitor_never_restarts_without_key
    (es : list Reset.poll_env) (s : Device.sys) :
  Device.hardRst s = 1 → Device.nvs s !! "initialized" = None →
  let r := Device.run (map Device.Poll es) s in
  (∀ fault, fst (Nvs.nvs_erase_key fault (Device.nvs s) "initialized") ≠ ESP_OK)
  ∧ r = (s, concat (map Reset.retry es))
  ∧ Device.hardRst (fst r) = 1
  ∧ occurrences is_restart (snd r) = O
  ∧ delayed (snd r) = 4000 * Z.of_nat (List.length es).
Proof.
  intros Hh Hk r.
  assert (Hr : r = (s, concat (map Reset.retry es))).
  { subst r. induction es as [|e es IH]; [done |].
    cbn [map Device.run concat]. by rewrite poll_without_key, IH. }
  rewrite Hr. cbn [fst snd]. split_and!; try done.
  - intros fault. by apply erase_absent.
  - clear. induction es as [|e es IH]; [done |].
    cbn [map concat]. rewrite occurrences_app, IH.
    by destruct (retry_sleeps e) as [_ ->].
  - clear. induction es as [|e es IH]; [done |].
    cbn [map concat List.length]. rewrite delayed_app, IH.
    destruct (retry_sleeps e) as [-> _]. lia.
Qed.

(** The button pressed on a device that was never provisioned: three polls,
    twelve seconds, no restart. *)
Lemma monitor_never_restarts_without_key_witness :
  let s := Device.mk 1 Examples.st0 ∅ Device.Serving in
  let r := Device.run (map Device.Poll [Examples.polls; Examples.polls; Examples.polls]) s in
  fst r = s ∧ occurrences is_restart (snd r) = O ∧ delayed (snd r) = 12000
  ∧ occurrences Reset.is_erase (snd r) = 3%nat.
Proof.
  pose proof (monitor_never_restarts_without_key
    [Examples.polls; Examples.polls; Examples.polls]
    (Device.mk 1 Examples.st0 ∅ Device.Serving) eq_refl eq_refl) as H.
  cbv zeta in H |- *. destruct H as (_ & -> & _ & _ & _). by split_and!.
Defined.

(** * Further properties of the code *)

(** ** Trace observations over concatenation *)

Lemma attempted_app (t1 t2 : list call) :
  Wifi.attempted (t1 ++ t2) = Wifi.attempted t1 ++ Wifi.attempted t2.
Proof.
  induction t1 as [|c t1 IH]; [done |].
  destruct c; cbn; by rewrite IH.
Qed.

Lemma gpio_level_app (pin : Z) (t1 t2 : list call) (l : Z) :
  gpio_level pin (t1 ++ t2) l = gpio_level pin t2 (gpio_level pin t1 l).
Proof.
  revert l. induction t1 as [|c t1 IH]; intros l; [done |].
  destruct c; cbn; by rewrite IH.
Qed.

Lemma gpio_writes_app (pin : Z) (t1 t2 : list call) :
  gpio_writes pin (t1 ++ t2) = gpio_writes pin t1 ++ gpio_writes pin t2.
Proof.
  induction t1 as [|c t1 IH]; [done |].
  destruct c; cbn; rewrite ?IH; try done.
  match goal with |- context [?p =? pin] => by destruct (p =? pin) end.
Qed.

(** ** Connectivity manager: invariants of [event_handler] *)

Lemma handle_all_cons (N : Z) (ev : Wifi.system_event)
    (evs : list Wifi.system_event) (w : Wifi.state) :
  Wifi.handle_all N (ev :: evs) w =
    (fst (Wifi.handle_all N evs (fst (Wifi.event_handler N ev w))),
     snd (Wifi.event_handler N ev w)
     ++ snd (Wifi.handle_all N evs (fst (Wifi.event_handler N ev w)))).
Proof.
  cbn [Wifi.handle_all]. destruct (Wifi.event_handler N ev w) as [w1 tr1].
  cbn [fst snd]. by destruct (Wifi.handle_all N evs w1).
Qed.

Lemma nextNet_in_bounds (N : Z) (evs : list Wifi.system_event) :
  1 ≤ N → ∀ w, 0 ≤ Wifi.nextNet w < N →
    0 ≤ Wifi.nextNet (fst (Wifi.handle_all N evs w)) < N
    ∧ Forall (fun i => 0 ≤ i < N) (Wifi.attempted (snd (Wifi.handle_all N evs w))).
Proof.
  intros HN. induction evs as [|ev evs IH]; intros w Hw; [by split |].
  rewrite handle_all_cons. cbn [fst snd]. rewrite attempted_app.
  assert (Hrem : 0 ≤ Z.rem (Wifi.nextNet w + 1) N < N).
  { rewrite Z.rem_mod_nonneg by lia. apply Z.mod_pos_bound. lia. }
  destruct ev; cbn [Wifi.event_handler Wifi.attempt fst snd Wifi.nextNet Wifi.attempted app].
  - destruct (IH (Wifi.mk (Wifi.nextNet w) (Z.rem (Wifi.nextNet w + 1) N)
                    (Wifi.connected w) (Wifi.CONNECTED_BIT w)) Hrem) as [Hn Ha].
    split; [done |]. by constructor.
  - destruct (IH (Wifi.mk (Wifi.currNet w) (Wifi.nextNet w) 1 true) Hw) as [Hn Ha].
    by split.
  - destruct (IH (Wifi.mk (Wifi.nextNet w) (Z.rem (Wifi.nextNet w + 1) N) 0 false) Hrem)
      as [Hn Ha].
    split; [done |]. by constructor.
  - by apply IH.
Qed.

(** X1. With at least one candidate network, whatever events arrive after
    [initWiFi] (any number of starts, addresses, disconnects, others): the
    next index stays within [0, NUMOFNETS) and so does every index used to
    read [wifiConfig]. *)
Theorem network_indices_in_bounds
    (N : Z) (w0 : Wifi.state) (evs : list Wifi.system_event) :
  1 ≤ N →
  let r := Wifi.handle_all N evs (Wifi.initWiFi w0) in
  0 ≤ Wifi.nextNet (fst r) < N
  ∧ Forall (fun i => 0 ≤ i < N) (Wifi.attempted (snd r)).
Proof.
  intros HN r. subst r. apply nextNet_in_bounds; [done |]. cbn. lia.
Qed.

Lemma network_indices_in_bounds_witness :
  let r := Wifi.handle_all 2
             [Wifi.SYSTEM_EVENT_STA_START; Wifi.SYSTEM_EVENT_STA_DISCONNECTED;
              Wifi.SYSTEM_EVENT_STA_START; Wifi.SYSTEM_EVENT_STA_DISCONNECTED]
             (Wifi.initWiFi (Wifi.mk 9 9 0 false)) in
  0 ≤ Wifi.nextNet (fst r) < 2
  ∧ Forall (fun i => 0 ≤ i < 2) (Wifi.attempted (snd r)).
Proof.
  apply (network_indices_in_bounds 2 (Wifi.mk 9 9 0 false)). lia.
Defined.

(** X2. After any run of the handler that made an attempt, [currNet] is the
    index of the last network attempted (the one the link, if any, is on, and
    the one whose peer address [taskConnect] reads); a run without an
    attempt leaves [currNet] alone. *)
Theorem currNet_is_last_attempted
    (N : Z) (evs : list Wifi.system_event) (w : Wifi.state) :
  let r := Wifi.handle_all N evs w in
  match list.last (Wifi.attempted (snd r)) with
  | Some i => Wifi.currNet (fst r) = i
  | None => Wifi.currNet (fst r) = Wifi.currNet w
  end.
Proof.
  cbv zeta. revert w. induction evs as [|ev evs IH]; intros w; [done |].
  rewrite handle_all_cons. cbn [fst snd]. rewrite attempted_app, last_app.
  specialize (IH (fst (Wifi.event_handler N ev w))).
  destruct (list.last (Wifi.attempted (snd (Wifi.handle_all N evs _)))) as [i |];
    [done |].
  rewrite IH. by destruct ev.
Qed.

(** X3. The handler keeps the three views of the link in step: if the flag
    [connected], the bit of the event group and the level of the WiFi
    indicator (pin 26) agree before a run of events, they agree after it;
    and [invalidate] is called once for every address obtained and every
    link lost, and for nothing else. *)
Theorem link_views_agree
    (N : Z) (evs : list Wifi.system_event) (w : Wifi.state) (level : Z) :
  link_agrees w → level = Wifi.connected w →
  let r := Wifi.handle_all N evs w in
  link_agrees (fst r)
  ∧ gpio_level 26 (snd r) level = Wifi.connected (fst r)
  ∧ occurrences is_invalidate (snd r) = List.length (List.filter is_link_event evs).
Proof.
  cbv zeta. revert w level. induction evs as [|ev evs IH]; intros w level Hw Hl.
  { by split_and!. }
  rewrite handle_all_cons. cbn [fst snd].
  rewrite gpio_level_app, occurrences_app.
  destruct ev; cbn [Wifi.event_handler Wifi.attempt fst snd].
  - destruct (IH (Wifi.mk (Wifi.nextNet w) (Z.rem (Wifi.nextNet w + 1) N)
                    (Wifi.connected w) (Wifi.CONNECTED_BIT w)) level Hw Hl)
      as (Ha & Hg & Hi).
    by split_and!.
  - destruct (IH (Wifi.mk (Wifi.currNet w) (Wifi.nextNet w) 1 true) 1
                ltac:(by left) eq_refl) as (Ha & Hg & Hi).
    split_and!; [done | done |]. cbn. by rewrite Hi.
  - destruct (IH (Wifi.mk (Wifi.nextNet w) (Z.rem (Wifi.nextNet w + 1) N) 0 false) 0
                ltac:(by right) eq_refl) as (Ha & Hg & Hi).
    split_and!; [done | done |]. cbn. by rewrite Hi.
  - by apply IH.
Qed.

Lemma link_views_agree_witness :
  let r := Wifi.handle_all 2
             [Wifi.SYSTEM_EVENT_STA_START; Wifi.SYSTEM_EVENT_STA_GOT_IP;
              Wifi.SYSTEM_EVENT_STA_DISCONNECTED; Wifi.SYSTEM_EVENT_STA_GOT_IP]
             (Wifi.mk 0 0 0 false) in
  link_agrees (fst r)
  ∧ gpio_level 26 (snd r) 0 = Wifi.connected (fst r)
  ∧ occurrences is_invalidate (snd r) = 3%nat.
Proof.
  apply (link_views_agree 2
           [Wifi.SYSTEM_EVENT_STA_START; Wifi.SYSTEM_EVENT_STA_GOT_IP;
            Wifi.SYSTEM_EVENT_STA_DISCONNECTED; Wifi.SYSTEM_EVENT_STA_GOT_IP]
           (Wifi.mk 0 0 0 false) 0); [by right | reflexivity].
Defined.

(** ** [wifiStatus] *)

Lemma wifiStatus_cons (c : Z) (reads : list Z) (toggle : Z) :
  Status.wifiStatus (c :: reads) toggle =
    (fst (Status.wifiStatus reads (fst (Status.blink c toggle))),
     snd (Status.blink c toggle)
     ++ snd (Status.wifiStatus reads (fst (Status.blink c toggle)))).
Proof.
  cbn [Status.wifiStatus]. destruct (Status.blink c toggle) as [t1 tr1].
  cbn [fst snd]. by destruct (Status.wifiStatus reads t1).
Qed.

(** On a flag that is 0 or 1, [toggle ^= 1] inverts it. *)
Lemma lxor_inverts (t : Z) : 0 ≤ t ≤ 1 → Z.lxor t 1 = 1 - t.
Proof. intros Ht. by (assert (t = 0 ∨ t = 1) as [-> | ->] by lia). Qed.

(** The levels an indicator shows when it is toggled [n] times from [t]. *)
Lemma toggled_levels (n : nat) (t : Z) :
  0 ≤ t ≤ 1 →
  map (fun i => (t + 1 + Z.of_nat i) mod 2) (seq 0 (S n))
  = (1 - t) :: map (fun i => (1 - t + 1 + Z.of_nat i) mod 2) (seq 0 n).
Proof.
  intros Ht. rewrite <- cons_seq, <- seq_shift, map_cons, map_map.
  f_equal; [Z.to_euclidean_division_equations; lia |].
  apply map_ext. intros i. Z.to_euclidean_division_equations; lia.
Qed.

Lemma downs_cons (c : Z) (reads : list Z) :
  Status.downs (c :: reads)
  = if c =? 0 then S (Status.downs reads) else Status.downs reads.
Proof. unfold Status.downs. cbn. by destruct (c =? 0). Qed.

Lemma wifiStatus_from (reads : list Z) :
  ∀ t, 0 ≤ t ≤ 1 →
    let r := Status.wifiStatus reads t in
    let n := Status.downs reads in
    fst r = (t + Z.of_nat n) mod 2
    ∧ gpio_writes 26 (snd r) = map (fun i => (t + 1 + Z.of_nat i) mod 2) (seq 0 n)
    ∧ delayed (snd r) = 500 * Z.of_nat (List.length reads).
Proof.
  induction reads as [|c reads IH]; intros t Ht.
  { cbv zeta. split_and!; try done. cbn [Status.wifiStatus fst]. unfold Status.downs.
    cbn [List.filter List.length]. change (Z.of_nat 0) with 0.
    Z.to_euclidean_division_equations; lia. }
  cbv zeta. rewrite wifiStatus_cons. cbn [fst snd].
  rewrite gpio_writes_app, delayed_app.
  rewrite downs_cons. unfold Status.blink.
  destruct (c =? 0); cbn [fst snd List.length].
  - rewrite lxor_inverts by done.
    destruct (IH (1 - t) ltac:(lia)) as (Ht' & Hw & Hd). cbv zeta in Ht', Hw, Hd.
    rewrite Ht', Hw, Hd. split_and!.
    + rewrite Nat2Z.inj_succ.
      (assert (t = 0 ∨ t = 1) as [-> | ->] by lia);
        Z.to_euclidean_division_equations; lia.
    + rewrite toggled_levels by done. cbn [gpio_writes app]. by rewrite Z.eqb_refl.
    + cbn [delayed]. lia.
  - destruct (IH t Ht) as (Ht' & Hw & Hd). cbv zeta in Ht', Hw, Hd.
    rewrite Ht', Hw, Hd. split_and!; try done. cbn [delayed]. lia.
Qed.

(** X4. [wifiStatus] blinks only while the link is down.  Over any number
    of iterations, with [n] of them finding [connected == 0]: the indicator
    on pin 26 is written exactly [n] times, with the levels 1, 0, 1, 0, ..
    (every write inverts the one before, the first one turns it on); the
    iterations that find the link up write nothing; [toggle] ends as
    [n mod 2]; and every iteration sleeps 500 ms. *)
Theorem wifiStatus_blinks_while_down (reads : list Z) :
  let r := Status.wifiStatus reads 0 in
  let n := Status.downs reads in
  fst r = Z.of_nat n mod 2
  ∧ gpio_writes 26 (snd r) = map (fun i => (1 + Z.of_nat i) mod 2) (seq 0 n)
  ∧ delayed (snd r) = 500 * Z.of_nat (List.length reads).
Proof. exact (wifiStatus_from reads 0 ltac:(lia)). Qed.

(** ** The confirmation gate: how long it waits *)

(** Whatever the button does, the wait loop is a whole number of passes
    through its body, and [time] counts them. *)
Lemma wait_shape (press : nat → bool) (fuel : nat) :
  ∀ p t, ∃ n p',
    Task.wait fuel press p t = (concat (repeat Task.pulse n), p', t + Z.of_nat n)
    ∧ (n ≤ fuel)%nat
    ∧ (t ≤ 30 → t + Z.of_nat n ≤ 30)
    ∧ (p = 0 → t < 30 → (0 < fuel)%nat → (1 ≤ n)%nat).
Proof.
  induction fuel as [|fuel IH]; intros p t.
  - exists O, p. cbn. rewrite Z.add_0_r. split_and!; try done; lia.
  - cbn [Task.wait].
    destruct (Z.eqb_spec p 0) as [Hp | Hp], (Z.ltb_spec t 30) as [Ht | Ht];
      cbn [andb];
      try (exists O, p; cbn; rewrite Z.add_0_r; split_and!; try done; lia).
    destruct (IH (Task.proceedHandle (press (Z.to_nat (2 * t + 1)))
                    (Task.proceedHandle (press (Z.to_nat (2 * t))) p)) (t + 1))
      as (n & p' & -> & Hn & Hb & _).
    exists (S n), p'. cbn [repeat concat]. split_and!; try lia.
    f_equal. lia.
Qed.

(** The first press comes during iteration [i] of the wait (its sleeps are
    [2 * i] and [2 * i + 1]): the loop makes exactly [i + 1] passes. *)
Lemma wait_first_press (press : nat → bool) (i : nat) :
  (press (2 * i)%nat = true ∨ press (2 * i + 1)%nat = true) →
  ∀ d k fuel, i = (k + d)%nat → (d < fuel)%nat →
    (i < 30)%nat →
    (∀ n, (2 * k ≤ n < 2 * i)%nat → press n = false) →
    Task.wait fuel press 0 (Z.of_nat k)
    = (concat (repeat Task.pulse (S d)), 1, Z.of_nat i + 1).
Proof.
  intros Hpress. induction d as [|d IH]; intros k fuel Hi Hf H30 Hquiet;
    (destruct fuel as [|fuel]; [lia |]); cbn [Task.wait].
  - assert (k = i) as -> by lia.
    replace (Z.of_nat i <? 30) with true by (symmetry; apply Z.ltb_lt; lia).
    cbn [Z.eqb andb].
    replace (Z.to_nat (2 * Z.of_nat i)) with (2 * i)%nat by lia.
    replace (Z.to_nat (2 * Z.of_nat i + 1)) with (2 * i + 1)%nat by lia.
    assert (Task.proceedHandle (press (2 * i + 1)%nat)
              (Task.proceedHandle (press (2 * i)%nat) 0) = 1) as ->.
    { destruct Hpress as [-> | ->]; [by destruct (press _) | done]. }
    by rewrite wait_confirmed.
  - replace (Z.of_nat k <? 30) with true by (symmetry; apply Z.ltb_lt; lia).
    cbn [Z.eqb andb].
    replace (Z.to_nat (2 * Z.of_nat k)) with (2 * k)%nat by lia.
    replace (Z.to_nat (2 * Z.of_nat k + 1)) with (2 * k + 1)%nat by lia.
    rewrite !Hquiet by lia. cbn [Task.proceedHandle].
    replace (Z.of_nat k + 1) with (Z.of_nat (S k)) by lia.
    rewrite (IH (S k) fuel) by (try lia; intros n Hn; apply Hquiet; lia).
    reflexivity.
Qed.

(** The gate is the store, [n] passes and the WiFi indicator back on. *)
Lemma gate_shape (press : nat → bool) (st : Task.state) :
  ∃ n : nat,
    (1 ≤ n ≤ 30)%nat
    ∧ fst (fst (Task.gate press st))
      = [StoreProceed 0] ++ concat (repeat Task.pulse n) ++ [GpioSetLevel 26 1]
    ∧ (snd (fst (Task.gate press st)) = true ↔ n = 30%nat).
Proof.
  unfold Task.gate.
  destruct (wait_shape press 30 0 0) as (n & p' & -> & Hn & Hb & H1).
  exists n. assert (Hn1 : (1 ≤ n)%nat) by (apply H1; lia).
  destruct (Z.eqb_spec (0 + Z.of_nat n) 30) as [H30 | H30]; cbn [fst snd];
    split_and!; try done; try lia.
Qed.

(** After at least one pass both indicators are off. *)
Lemma pulses_levels (pin : Z) (n : nat) (l : Z) :
  pin = 25 ∨ pin = 26 → (1 ≤ n)%nat →
  gpio_level pin (concat (repeat Task.pulse n)) l = 0.
Proof.
  intros Hpin Hn. destruct n as [|n]; [lia |]. clear Hn.
  revert l. induction n as [|n IH]; intros l.
  - destruct Hpin as [-> | ->]; reflexivity.
  - change (repeat Task.pulse (S (S n))) with (Task.pulse :: repeat Task.pulse (S n)).
    cbn [concat]. rewrite gpio_level_app. apply IH.
Qed.

(** A kind of call that is neither a store to [proceed], nor a write to a
    pin, nor a delay does not occur in the gate. *)
Lemma gate_quiet (p : call → bool) (press : nat → bool) (st : Task.state) :
  occurrences p [StoreProceed 0] = O → occurrences p Task.pulse = O →
  occurrences p [GpioSetLevel 26 1] = O →
  occurrences p (fst (fst (Task.gate press st))) = O.
Proof.
  intros H1 H2 H3. destruct (gate_shape press st) as (n & _ & -> & _).
  by rewrite !occurrences_app, H1, H3, pulses_quiet.
Qed.

(** What the gate leaves in the response buffer. *)
Lemma gate_output (press : nat → bool) (st : Task.state) :
  Task.output (snd (Task.gate press st))
  = if snd (fst (Task.gate press st))
    then OutData.set_length 2
           (OutData.store 1 0x83 (OutData.store 0 0x69 (Task.output st)))
    else Task.output st.
Proof.
  unfold Task.gate. destruct (Task.wait 30 press 0 0) as [[tr p] t].
  by destruct (t =? 30).
Qed.

(** X5. The wait of the gate is bounded whatever the button does, a
    press between the store [proceed = 0] and the first test of the loop
    included.  The gate clears [proceed], makes at most 30 passes of 500 ms
    through the blinking body (so it takes at most 15000 ms) and turns the
    WiFi indicator (pin 26) back on; it makes no pass at all exactly when
    the button is pressed in that first window; and it locks out exactly
    when it made all 30 passes. *)
Theorem gate_wait_is_bounded
    (early : bool) (press : nat → bool) (st : Task.state) (l26 : Z) :
  let g := gate_with_early_press early press st in
  gate_with_early_press false press st = Task.gate press st
  ∧ ∃ n : nat,
      (n ≤ 30)%nat
      ∧ fst (fst g)
        = [StoreProceed 0] ++ concat (repeat Task.pulse n) ++ [GpioSetLevel 26 1]
      ∧ delayed (fst (fst g)) = 500 * Z.of_nat n
      ∧ delayed (fst (fst g)) ≤ 15000
      ∧ (n = O ↔ early = true)
      ∧ (snd (fst g) = true ↔ n = 30%nat)
      ∧ gpio_level 26 (fst (fst g)) l26 = 1.
Proof.
  cbv zeta. split; [reflexivity |]. unfold gate_with_early_press.
  destruct (wait_shape press 30 (Task.proceedHandle early 0) 0)
    as (n & p' & Hw & Hn & Hb & H1).
  assert (Hzero : n = O ↔ early = true).
  { destruct early; cbn [Task.proceedHandle] in *.
    - rewrite wait_confirmed in Hw by done. inversion Hw as [[Hc Hp Ht]].
      split; [done |]. intros _. lia.
    - split; [| done]. intros ->. specialize (H1 eq_refl). lia. }
  rewrite Hw. exists n.
  assert (Hd : delayed ([StoreProceed 0] ++ concat (repeat Task.pulse n)
                        ++ [GpioSetLevel 26 1]) = 500 * Z.of_nat n).
  { rewrite !delayed_app, pulses_delayed. cbn. lia. }
  assert (Hl : gpio_level 26 ([StoreProceed 0] ++ concat (repeat Task.pulse n)
                              ++ [GpioSetLevel 26 1]) l26 = 1).
  { change ([StoreProceed 0] ++ ?x) with (StoreProceed 0 :: x).
    cbn [gpio_level]. by rewrite gpio_level_app. }
  destruct (Z.eqb_spec (0 + Z.of_nat n) 30) as [H30 | H30]; cbn [fst snd];
    rewrite Hd; split_and!; try done; try lia.
Qed.

(** X6. The first press of the button comes during iteration [i] of the
    wait, with [i < 29] (that is before 14.5 s): the gate makes exactly
    [i + 1] passes, so it ends [500 * (i + 1)] ms after it started (less
    than 500 ms after the press), it does not lock out, and it leaves the
    response buffer as it was and [proceed] set. *)
Theorem gate_ends_after_first_press
    (press : nat → bool) (st : Task.state) (i : nat) :
  (i < 29)%nat →
  (∀ n, (n < 2 * i)%nat → press n = false) →
  press (2 * i)%nat = true ∨ press (2 * i + 1)%nat = true →
  Task.gate press st
  = ([StoreProceed 0] ++ concat (repeat Task.pulse (S i)) ++ [GpioSetLevel 26 1],
     false, Task.mk (Task.output st) 1)
  ∧ delayed (fst (fst (Task.gate press st))) = 500 * (Z.of_nat i + 1).
Proof.
  intros Hi Hquiet Hpress.
  assert (Hg : Task.gate press st
    = ([StoreProceed 0] ++ concat (repeat Task.pulse (S i)) ++ [GpioSetLevel 26 1],
       false, Task.mk (Task.output st) 1)).
  { unfold Task.gate.
    pose proof (wait_first_press press i Hpress i 0%nat 30%nat) as Hw.
    change (Z.of_nat 0) with 0 in Hw.
    rewrite Hw by (try lia; intros n Hn; apply Hquiet; lia).
    by replace (Z.of_nat i + 1 =? 30) with false by (symmetry; apply Z.eqb_neq; lia). }
  split; [done |]. rewrite Hg. cbn [fst].
  rewrite !delayed_app, pulses_delayed. cbn [delayed]. lia.
Qed.

Lemma gate_ends_after_first_press_witness :
  Task.gate (Examples.only_at 7) Examples.st0
  = ([StoreProceed 0] ++ concat (repeat Task.pulse 4) ++ [GpioSetLevel 26 1],
     false, Task.mk (Task.output Examples.st0) 1)
  ∧ delayed (fst (fst (Task.gate (Examples.only_at 7) Examples.st0))) = 500 * (Z.of_nat 3 + 1).
Proof.
  apply (gate_ends_after_first_press (Examples.only_at 7) Examples.st0 3).
  - lia.
  - intros n Hn. unfold Examples.only_at. apply Nat.eqb_neq. lia.
  - by right.
Defined.

(** ** One session: what it does to the peer and to the socket *)

(** A session that gets no command to answer. *)
Lemma session_no_command (e : Task.session_env) (st : Task.state) :
  command_received e = false →
  Task.session e st =
    if Task.socket_ret e <? 0 then ([WaitBits; Socket; TaskDelay 1000], Task.GotoExit, st)
    else if Task.connect_ret e =? 0
    then ([WaitBits; Socket; Connect (Task.env_currNet e); Read; Invalidate; Close],
          Task.GotoBegin, st)
    else ([WaitBits; Socket; Connect (Task.env_currNet e); Invalidate; Close;
           TaskDelay 5000], Task.GotoBegin, st).
Proof.
  unfold command_received, Task.session.
  destruct (Task.socket_ret e <? 0); [done |].
  destruct (Task.connect_ret e =? 0); [| done].
  by destruct (Apdu.INS (Task.parsed e) =? 0).
Qed.

(** A session that gets a command: the gate if the command is sensitive,
    then either nothing (lockout) or the processing, then the write. *)
Lemma session_answer (e : Task.session_env) (st : Task.state) :
  command_received e = true →
  ∃ tg tp st2,
    Task.session e st =
      ([WaitBits; Socket; Connect (Task.env_currNet e); Read] ++ tg ++ tp
       ++ fst (Task.writeOutput e st2), snd (Task.writeOutput e st2), st2)
    ∧ ((tg = [] ∧ Task.sensitive (Task.parsed e) = false)
       ∨ (tg = fst (fst (Task.gate (Task.press e) st))
          ∧ Task.sensitive (Task.parsed e) = true))
    ∧ ((tp = [] ∧ Task.sensitive (Task.parsed e) = true
        ∧ Task.output st2
          = OutData.set_length 2
              (OutData.store 1 0x83 (OutData.store 0 0x69 (Task.output st))))
       ∨ (tp = [GpioSetLevel 25 1; Process (Task.parsed e); GpioSetLevel 25 0]
          ∧ Task.output st2 = Task.process_out e (Task.output st))).
Proof.
  unfold command_received. intros Hc.
  apply andb_prop in Hc as [Hc Hins]. apply andb_prop in Hc as [Hs Hconn].
  apply negb_true_iff, Z.ltb_ge in Hs. apply Z.eqb_eq in Hconn.
  apply negb_true_iff, Z.eqb_neq in Hins.
  rewrite session_command by done.
  destruct (Task.sensitive (Task.parsed e)) eqn:Hsens.
  - pose proof (gate_output (Task.press e) st) as Ho.
    destruct (Task.gate (Task.press e) st) as [[tg locked] st1].
    cbn [fst snd] in Ho |- *. destruct locked.
    + exists tg, [], st1. destruct (Task.writeOutput e st1). cbn [fst snd].
      split_and!; [done | by right | by left].
    + exists tg, [GpioSetLevel 25 1; Process (Task.parsed e); GpioSetLevel 25 0],
        (Task.mk (Task.process_out e (Task.output st1)) (Task.proceed st1)).
      cbn [Task.serve]. destruct (Task.writeOutput e _). cbn [fst snd Task.output].
      split_and!; [done | by right | right; by rewrite Ho].
  - exists [], [GpioSetLevel 25 1; Process (Task.parsed e); GpioSetLevel 25 0],
      (Task.mk (Task.process_out e (Task.output st)) (Task.proceed st)).
    cbn [Task.serve]. destruct (Task.writeOutput e _). cbn [fst snd Task.output].
    split_and!; [done | by left | by right].
Qed.

Lemma session_next (e : Task.session_env) (st : Task.state) :
  snd (fst (Task.session e st)) = Task.GotoExit ↔ session_fatal e = true.
Proof.
  unfold session_fatal. destruct (command_received e) eqn:Hc.
  - destruct (session_answer e st Hc) as (tg & tp & st2 & -> & _ & _).
    cbn [fst snd]. unfold command_received in Hc.
    destruct (Task.socket_ret e <? 0); [done |]. cbn [orb andb].
    unfold Task.writeOutput. by destruct (Task.write_ret e <? 0).
  - rewrite session_no_command by done.
    destruct (Task.socket_ret e <? 0); [done |].
    by destruct (Task.connect_ret e =? 0).
Qed.

(** X7. A session ends in [goto exit] (and so in the restart of the
    device) exactly when no socket could be allocated, or when a command
    with a non-zero instruction byte was received and the write of its
    response failed.  A refused connection and a command with instruction
    byte 00 never do. *)
Theorem session_exits_iff_fatal (e : Task.session_env) (st : Task.state) :
  (snd (fst (Task.session e st)) = Task.GotoExit ↔ session_fatal e = true)
  ∧ (0 ≤ Task.socket_ret e → Task.connect_ret e ≠ 0 →
     snd (fst (Task.session e st)) = Task.GotoBegin)
  ∧ (0 ≤ Task.socket_ret e → Apdu.INS (Task.parsed e) = 0 →
     snd (fst (Task.session e st)) ≠ Task.GotoExit).
Proof.
  split_and!; [apply session_next | |].
  - intros Hs Hc. rewrite session_no_command.
    + replace (Task.socket_ret e <? 0) with false by (symmetry; apply Z.ltb_ge; lia).
      by replace (Task.connect_ret e =? 0) with false by (symmetry; by apply Z.eqb_neq).
    + unfold command_received.
      replace (Task.connect_ret e =? 0) with false by (symmetry; by apply Z.eqb_neq).
      by rewrite andb_false_r.
  - intros Hs Hi. rewrite session_next. unfold session_fatal, command_received.
    replace (Task.socket_ret e <? 0) with false by (symmetry; apply Z.ltb_ge; lia).
    rewrite Hi. cbn. by rewrite andb_false_r.
Qed.

(** X8. Every session asks for one socket, and closes it exactly once if
    it got one: after a refused connection, after a command with
    instruction byte 00, after a lockout, after a written response and
    after a failed write alike.  Without a socket nothing is closed. *)
Theorem socket_closed_once (e : Task.session_env) (st : Task.state) :
  let tr := fst (fst (Task.session e st)) in
  occurrences is_socket tr = 1%nat
  ∧ occurrences is_close tr = if Task.socket_ret e <? 0 then O else 1%nat.
Proof.
  cbv zeta. destruct (command_received e) eqn:Hc.
  - destruct (session_answer e st Hc) as (tg & tp & st2 & -> & Hg & Hp).
    cbn [fst snd]. unfold command_received in Hc.
    destruct (Task.socket_ret e <? 0); [done |].
    assert (Htg : occurrences is_socket tg = O ∧ occurrences is_close tg = O).
    { destruct Hg as [[-> _] | [-> _]]; [done |]. split; by apply gate_quiet. }
    assert (Htp : occurrences is_socket tp = O ∧ occurrences is_close tp = O).
    { by destruct Hp as [(-> & _) | (-> & _)]. }
    destruct Htg as [Hg1 Hg2], Htp as [Hp1 Hp2].
    rewrite !occurrences_app, Hg1, Hg2, Hp1, Hp2.
    unfold Task.writeOutput. by destruct (Task.write_ret e <? 0).
  - rewrite session_no_command by done.
    destruct (Task.socket_ret e <? 0); [done |].
    by destruct (Task.connect_ret e =? 0).
Qed.

(** X9. One response per command.  A session that receives a command with
    a non-zero instruction byte calls [write] exactly once, and what it
    writes is either the lockout code 69 83, in which case the command was
    sensitive and [process] was not called, or the first [length] bytes of
    what [process], called exactly once on this command, left in the buffer.
    Any other session neither writes nor calls [process]. *)
Theorem one_response_per_command (e : Task.session_env) (st : Task.state) :
  let tr := fst (fst (Task.session e st)) in
  if command_received e then
    occurrences is_write tr = 1%nat
    ∧ ((written tr = [[0x69; 0x83]] ∧ occurrences is_process tr = O
        ∧ Task.sensitive (Task.parsed e) = true)
       ∨ (written tr = [OutData.bytes (Task.process_out e (Task.output st))]
          ∧ occurrences is_process tr = 1%nat
          ∧ In (Process (Task.parsed e)) tr))
  else occurrences is_write tr = O ∧ occurrences is_process tr = O.
Proof.
  cbv zeta. destruct (command_received e) eqn:Hc.
  - destruct (session_answer e st Hc) as (tg & tp & st2 & -> & Hg & Hp).
    cbn [fst snd].
    assert (Htg : occurrences is_write tg = O ∧ occurrences is_process tg = O
                  ∧ written tg = []).
    { destruct Hg as [[-> _] | [-> _]]; [done |].
      split_and!; try by apply gate_quiet.
      destruct (gate_shape (Task.press e) st) as (n & _ & -> & _).
      by rewrite !written_app, pulses_written. }
    destruct Htg as (Hg1 & Hg2 & Hg3).
    pose proof (writeOutput_written e st2) as (Hw1 & Hw2 & _).
    assert (Hw3 : occurrences is_write (fst (Task.writeOutput e st2)) = 1%nat).
    { unfold Task.writeOutput. by destruct (Task.write_ret e <? 0). }
    rewrite !occurrences_app, !written_app, Hg1, Hg2, Hg3, Hw1, Hw2, Hw3.
    destruct Hp as [(-> & Hs & Ho) | (-> & Ho)]; rewrite Ho.
    + split; [done |]. left. by rewrite lockout_bytes.
    + split; [done |]. right. split_and!; try done.
      rewrite !in_app_iff. right. right. left. cbn. auto.
  - rewrite session_no_command by done.
    destruct (Task.socket_ret e <? 0); [done |].
    by destruct (Task.connect_ret e =? 0).
Qed.

(** ** The loop and the task: restart and the processing indicator *)

(** A session restarts nothing and waits for connectivity once. *)
Lemma session_keeps_running (e : Task.session_env) (st : Task.state) :
  let tr := fst (fst (Task.session e st)) in
  occurrences is_restart tr = O ∧ occurrences is_unmount tr = O
  ∧ occurrences is_wait tr = 1%nat.
Proof.
  cbv zeta. destruct (command_received e) eqn:Hc.
  - destruct (session_answer e st Hc) as (tg & tp & st2 & -> & Hg & Hp).
    cbn [fst snd].
    assert (Htg : occurrences is_restart tg = O ∧ occurrences is_unmount tg = O
                  ∧ occurrences is_wait tg = O).
    { destruct Hg as [[-> _] | [-> _]]; [done |]. split_and!; by apply gate_quiet. }
    assert (Htp : occurrences is_restart tp = O ∧ occurrences is_unmount tp = O
                  ∧ occurrences is_wait tp = O).
    { by destruct Hp as [(-> & _) | (-> & _)]. }
    destruct Htg as (Hg1 & Hg2 & Hg3), Htp as (Hp1 & Hp2 & Hp3).
    rewrite !occurrences_app, Hg1, Hg2, Hg3, Hp1, Hp2, Hp3.
    unfold Task.writeOutput. by destruct (Task.write_ret e <? 0).
  - rewrite session_no_command by done.
    destruct (Task.socket_ret e <? 0); [done |].
    by destruct (Task.connect_ret e =? 0).
Qed.

(** A stretch of sessions none of which is fatal: the loop runs them all
    and goes on with what follows. *)
Lemma loop_without_fatal (es : list Task.session_env) :
  ∀ st, existsb session_fatal es = false →
    ∃ st1, snd (Task.loop es st) = Some st1
      ∧ occurrences is_restart (fst (Task.loop es st)) = O
      ∧ occurrences is_unmount (fst (Task.loop es st)) = O
      ∧ occurrences is_wait (fst (Task.loop es st)) = List.length es
      ∧ ∀ es2, Task.loop (es ++ es2) st
               = (fst (Task.loop es st) ++ fst (Task.loop es2 st1),
                  snd (Task.loop es2 st1)).
Proof.
  induction es as [|e es IH]; intros st Hq.
  { exists st. cbn. split_and!; try done. intros es2. by destruct (Task.loop es2 st). }
  cbn [existsb] in Hq. apply orb_false_elim in Hq as [He Hq].
  cbn [Task.loop app List.length].
  pose proof (session_next e st) as Hnx.
  pose proof (session_keeps_running e st) as (Hr & Hu & Hw). cbv zeta in Hr, Hu, Hw.
  destruct (Task.session e st) as [[tr nx] st']. cbn [fst snd] in Hnx, Hr, Hu, Hw.
  destruct (IH st' Hq) as (st1 & Hs & H1 & H2 & H3 & H4).
  assert (Hne : nx ≠ Task.GotoExit).
  { intros Hx. apply Hnx in Hx. congruence. }
  exists st1.
  assert (Hgo : ∀ es2,
    match nx with
    | Task.GotoExit => (tr ++ Task.exit_path, None)
    | _ => let '(tr', r) := Task.loop (es ++ es2) st' in (tr ++ tr', r)
    end = (tr ++ fst (Task.loop (es ++ es2) st'), snd (Task.loop (es ++ es2) st'))).
  { intros es2. destruct nx; try done; by destruct (Task.loop (es ++ es2) st'). }
  pose proof (Hgo []) as Hgo0. rewrite app_nil_r in Hgo0. rewrite Hgo0.
  cbn [fst snd]. rewrite !occurrences_app, Hr, Hu, Hw, H1, H2, H3.
  split_and!; try done.
  intros es2. rewrite Hgo, H4. cbn [fst snd]. by rewrite app_assoc.
Qed.

(** A fatal session is the last one. *)
Lemma loop_fatal_head (e : Task.session_env) (es : list Task.session_env)
    (st : Task.state) :
  session_fatal e = true →
  Task.loop (e :: es) st
  = (fst (fst (Task.session e st))
     ++ [TaskDelay 1000; TaskDelay 1000; TaskDelay 1000; UnmountFS; EspRestart], None).
Proof.
  intros Hf. apply (session_next e st) in Hf. cbn [Task.loop].
  destruct (Task.session e st) as [[tr nx] st']. cbn [fst snd] in Hf |- *.
  by rewrite Hf.
Qed.

Lemma first_fatal (es : list Task.session_env) :
  existsb session_fatal es = true →
  ∃ es1 e es2, es = es1 ++ e :: es2
    ∧ existsb session_fatal es1 = false ∧ session_fatal e = true.
Proof.
  induction es as [|e es IH]; [done |]. cbn [existsb].
  destruct (session_fatal e) eqn:He.
  - intros _. by exists [], e, es.
  - cbn [orb]. intros Hq. destruct (IH Hq) as (es1 & e' & es2 & -> & H1 & H2).
    exists (e :: es1), e', es2. cbn [existsb]. by rewrite He.
Qed.

(** X10. The loop restarts the device exactly when one of its sessions is
    fatal (no socket, or a failed write of a response).  Up to the first
    fatal session the loop runs every session; after the fatal one it does
    three delays of one second, the unmount and the restart, and that is
    the end of its trace: the sessions that would have followed are never
    started (the loop over the whole list is the loop over the list cut
    after the fatal session), and the device is restarted and the storage
    unmounted exactly once.  When no session is fatal, the loop never
    unmounts or restarts and waits for connectivity once per session. *)
Theorem loop_restarts_iff_fatal (es : list Task.session_env) (st : Task.state) :
  (snd (Task.loop es st) = None ↔ existsb session_fatal es = true)
  ∧ (∀ es1 e es2,
       es = es1 ++ e :: es2 →
       existsb session_fatal es1 = false → session_fatal e = true →
       ∃ st1, snd (Task.loop es1 st) = Some st1
         ∧ Task.loop es st
           = (fst (Task.loop es1 st) ++ fst (fst (Task.session e st1))
              ++ [TaskDelay 1000; TaskDelay 1000; TaskDelay 1000; UnmountFS; EspRestart],
              None)
         ∧ Task.loop es st = Task.loop (es1 ++ [e]) st
         ∧ occurrences is_wait (fst (Task.loop es st)) = S (List.length es1)
         ∧ occurrences is_restart (fst (Task.loop es st)) = 1%nat
         ∧ occurrences is_unmount (fst (Task.loop es st)) = 1%nat)
  ∧ (existsb session_fatal es = false →
     snd (Task.loop es st) ≠ None
     ∧ occurrences is_restart (fst (Task.loop es st)) = O
     ∧ occurrences is_unmount (fst (Task.loop es st)) = O
     ∧ occurrences is_wait (fst (Task.loop es st)) = List.length es).
Proof.
  assert (Hcut : ∀ es1 e es2,
    es = es1 ++ e :: es2 →
    existsb session_fatal es1 = false → session_fatal e = true →
    ∃ st1, snd (Task.loop es1 st) = Some st1
      ∧ Task.loop es st
        = (fst (Task.loop es1 st) ++ fst (fst (Task.session e st1))
           ++ [TaskDelay 1000; TaskDelay 1000; TaskDelay 1000; UnmountFS; EspRestart],
           None)
      ∧ Task.loop es st = Task.loop (es1 ++ [e]) st
      ∧ occurrences is_wait (fst (Task.loop es st)) = S (List.length es1)
      ∧ occurrences is_restart (fst (Task.loop es st)) = 1%nat
      ∧ occurrences is_unmount (fst (Task.loop es st)) = 1%nat).
  { intros es1 e es2 -> H1 He.
    destruct (loop_without_fatal es1 st H1) as (st1 & Hs & Hr & Hu & Hw & Happ).
    pose proof (session_keeps_running e st1) as (Hr1 & Hu1 & Hw1).
    cbv zeta in Hr1, Hu1, Hw1.
    exists st1. rewrite !Happ, !loop_fatal_head by done. cbn [fst snd].
    rewrite !occurrences_app, Hr, Hu, Hw, Hr1, Hu1, Hw1.
    split_and!; try done. cbn. lia. }
  split_and!; [| exact Hcut |].
  - split.
    + intros Hn. destruct (existsb session_fatal es) eqn:Hq; [done |].
      destruct (loop_without_fatal es st Hq) as (st1 & Hs & _). congruence.
    + intros Hq. destruct (first_fatal es Hq) as (es1 & e & es2 & Hes & H1 & He).
      destruct (Hcut es1 e es2 Hes H1 He) as (st1 & _ & -> & _). done.
  - intros Hq. destruct (loop_without_fatal es st Hq) as (st1 & Hs & Hr & Hu & Hw & _).
    split_and!; try done. congruence.
Qed.

(** A session leaves the processing indicator (pin 25) off if it found it
    off, and off in any case if it got a command. *)
Lemma session_busy_level (e : Task.session_env) (st : Task.state) (l : Z) :
  gpio_level 25 (fst (fst (Task.session e st))) l
  = if command_received e then 0 else l.
Proof.
  destruct (command_received e) eqn:Hc.
  - destruct (session_answer e st Hc) as (tg & tp & st2 & -> & Hg & Hp).
    cbn [fst snd]. rewrite !gpio_level_app.
    assert (Hw : ∀ l', gpio_level 25 (fst (Task.writeOutput e st2)) l' = l').
    { intros l'. unfold Task.writeOutput. by destruct (Task.write_ret e <? 0). }
    rewrite Hw. destruct Hp as [(-> & Hs & _) | (-> & _)]; [| done].
    destruct Hg as [[_ Hns] | [-> _]]; [congruence |].
    destruct (gate_shape (Task.press e) st) as (n & Hn & -> & _).
    cbn [gpio_level app]. rewrite gpio_level_app, pulses_levels by (auto; lia).
    reflexivity.
  - rewrite session_no_command by done.
    destruct (Task.socket_ret e <? 0); [done |].
    by destruct (Task.connect_ret e =? 0).
Qed.

Lemma loop_busy_level (es : list Task.session_env) :
  ∀ st, gpio_level 25 (fst (Task.loop es st)) 0 = 0.
Proof.
  induction es as [|e es IH]; intros st; [done |].
  cbn [Task.loop]. pose proof (session_busy_level e st 0) as Hs.
  destruct (Task.session e st) as [[tr nx] st1]. cbn [fst] in Hs.
  assert (Htr : gpio_level 25 tr 0 = 0) by (by destruct (command_received e)).
  specialize (IH st1).
  destruct nx; [destruct (Task.loop es st1) .. |]; cbn [fst] in *;
    rewrite gpio_level_app, Htr; done.
Qed.

(** X11. The processing indicator (pin 25) tells where [taskConnect] is.
    Whenever the task is back at the wait for connectivity, after any number
    of sessions, the indicator is off, whatever it showed at boot; and when
    provisioning fails, the indicator, turned on at the start of the
    prologue, is still on when the device restarts. *)
Theorem busy_indicator_off_at_wait
    (be : Task.boot_env) (nvs : gmap string Z) (h : Z)
    (es : list Task.session_env) (st : Task.state) (l : Z) :
  let r := Task.taskConnect be nvs h es st in
  (snd r ≠ None → gpio_level 25 (fst r) l = 0)
  ∧ (snd (fst (Task.prologue be nvs h)) = false →
     snd r = None ∧ gpio_level 25 (fst r) l = 1).
Proof.
  cbv zeta. unfold Task.taskConnect.
  pose proof (loop_busy_level es st) as Hl.
  destruct (Task.loop es st) as [tl rl]. cbn [fst] in Hl.
  remember (Task.read_err be nvs) as err eqn:Herr.
  unfold Task.prologue. rewrite <- Herr. clear Herr.
  prologue_cases be err; split; intros H; try done;
    rewrite ?gpio_level_app; cbn [gpio_level app Z.eqb Pos.eqb]; try done.
Qed.

(** ** The device: stale confirmations, hard reset, provisioning *)



(** X13. A hard reset sends the next boot back to [initialize].  On a
    provisioned device, in whatever phase [taskConnect] is: the button is
    pressed, the monitor polls (the store opens, the erase works), it
    erases the key, unmounts and restarts without sleeping; after that the
    key is gone and the flag is clear again; and the prologue of the next
    boot (the store opens, the read works) calls [initialize] and not
    [restoreState]. *)
Theorem hard_reset_forces_initialize
    (s : Device.sys) (pe : Reset.poll_env) (be : Task.boot_env) :
  is_Some (Device.nvs s !! "initialized") →
  Reset.open_ret pe = ESP_OK → Reset.erase_fault pe = None →
  Task.nvs_open_ret be = ESP_OK → Task.nvs_get_fault be = None →
  let r := Device.run [Device.HardResetButton; Device.Poll pe] s in
  snd r = [StoreHardRst 1; NvsOpen; NvsEraseKey "initialized"; UnmountFS; EspRestart]
  ∧ Device.nvs (fst r) !! "initialized" = None
  ∧ Device.hardRst (fst r) = 0
  ∧ Device.task (fst r) = Device.Booting
  ∧ occurrences is_initialize (snd (Device.step (Device.Boot be) (fst r))) = 1%nat
  ∧ occurrences is_restore (snd (Device.step (Device.Boot be) (fst r))) = O.
Proof.
  intros [v Hv] Ho Hf Hbo Hbf. cbv zeta.
  assert (Hr : Device.run [Device.HardResetButton; Device.Poll pe] s
    = (Device.mk 0 (Task.mk (Task.output (Device.conn s)) 0)
         (delete "initialized" (Device.nvs s)) Device.Booting,
       [StoreHardRst 1; NvsOpen; NvsEraseKey "initialized"; UnmountFS; EspRestart])).
  { cbn [Device.run Device.step Device.hardRst Device.nvs Device.conn Device.task].
    unfold Reset.poll. cbn [Z.eqb Pos.eqb]. rewrite Ho. cbn [Z.eqb].
    unfold Nvs.nvs_erase_key, Nvs.with_fault. rewrite Hf, Hv. cbn [Z.eqb].
    reflexivity. }
  rewrite Hr. cbn [fst snd Device.nvs Device.hardRst Device.task].
  assert (Hgone : delete "initialized" (Device.nvs s) !! "initialized" = None)
    by apply lookup_delete_eq.
  split_and!; try done.
  all: cbn [Device.step Device.task Device.nvs Device.hardRst];
    unfold Task.prologue, Task.read_err, Nvs.nvs_get_u8, Nvs.with_fault;
    rewrite Hbo, Hbf, Hgone; cbn [Z.eqb negb fst];
    by destruct (negb (Task.initialize_ret be =? 0)).
Qed.

Lemma hard_reset_forces_initialize_witness :
  let s := Device.mk 0 Examples.st0 Examples.provisioned Device.Serving in
  let r := Device.run [Device.HardResetButton; Device.Poll Examples.polls] s in
  Device.nvs (fst r) !! "initialized" = None
  ∧ occurrences is_initialize
      (snd (Device.step (Device.Boot (Examples.boots 0 0)) (fst r))) = 1%nat.
Proof.
  pose proof (hard_reset_forces_initialize
    (Device.mk 0 Examples.st0 Examples.provisioned Device.Serving)
    Examples.polls (Examples.boots 0 0)
    ltac:(by eexists) eq_refl eq_refl eq_refl eq_refl) as H.
  cbv zeta in H |- *. destruct H as (_ & Hk & _ & _ & Hi & _). by split.
Defined.

(** One action that does not ask for a reset keeps the flag clear. *)
Lemma step_keeps_flag_clear (a : Device.action) (s : Device.sys) :
  requests_reset a = false → Device.hardRst s = 0 →
  Device.hardRst (fst (Device.step a s)) = 0.
Proof.
  intros Ha Hh.
  destruct a as [| | e | e | | e | e]; cbn [Device.step]; try done.
  - cbn in Ha. apply negb_false_iff, Z.eqb_eq in Ha.
    destruct (Device.task s); try done.
    remember (Task.read_err e (Device.nvs s)) as err eqn:Herr.
    unfold Task.prologue. rewrite <- Herr. clear Herr.
    prologue_cases e err; cbn; done.
  - destruct (Device.task s); try done.
    by destruct (Task.session e (Device.conn s)) as [[tr nx] st].
  - by destruct (Device.task s).
  - rewrite poll_keeps_store by lia. done.
  - destruct (Device.task s); try done.
    by destruct (snd (Startup.initNVS e)).
Qed.

(** One action that neither asks for a reset nor erases the partition
    keeps the flag clear and the key in the store. *)
Lemma step_keeps_provisioned (a : Device.action) (s : Device.sys) :
  requests_reset a = false → Device.erases_partition a = false →
  Device.hardRst s = 0 → is_Some (Device.nvs s !! "initialized") →
  Device.hardRst (fst (Device.step a s)) = 0
  ∧ is_Some (Device.nvs (fst (Device.step a s)) !! "initialized").
Proof.
  intros Ha Hw Hh Hk. split; [by apply step_keeps_flag_clear |].
  destruct (Device.nvs (fst (Device.step a s)) !! "initialized") eqn:Hn; [by eexists |].
  destruct (erases_is_poll a s (conj Hk Hn)) as [[_ H1] | (e & -> & _ & He)]; [lia |].
  cbn in Hw. congruence.
Qed.

(** X14. A provisioned device stays provisioned as long as nobody asks for
    a reset and the NVS partition stays in order.  In any execution that
    starts with the flag clear and the key "initialized" in the store, and
    in which the hard-reset button is not pressed, no boot sees
    [restoreState] fail and no [initNVS] gets to erase the partition (finds
    it without free pages): after every number of actions (boots with
    their [initNVS], sessions, restarts, polls of the monitor, presses of
    the proceed button) the flag is still clear and the key still there. *)
Theorem provisioned_until_reset_requested
    (acts : list Device.action) (s0 : Device.sys) :
  Device.hardRst s0 = 0 → is_Some (Device.nvs s0 !! "initialized") →
  existsb requests_reset acts = false →
  existsb Device.erases_partition acts = false →
  Device.hardRst (fst (Device.run acts s0)) = 0
  ∧ is_Some (Device.nvs (fst (Device.run acts s0)) !! "initialized").
Proof.
  revert s0. induction acts as [|a acts IH]; intros s0 Hh Hk Hq Hw; [done |].
  cbn [existsb] in Hq, Hw.
  apply orb_false_elim in Hq as [Ha Hq]. apply orb_false_elim in Hw as [Hwa Hw].
  rewrite run_cons.
  destruct (step_keeps_provisioned a s0 Ha Hwa Hh Hk) as [Hh1 Hk1].
  by apply IH.
Qed.

Lemma provisioned_until_reset_requested_witness :
  let acts := [Device.AppInit Examples.nvs_in_order;
               Device.Boot (Examples.boots 0 0); Device.ProceedButton;
               Device.Poll Examples.polls;
               Device.Serve (Examples.peer 0x00 0x84 Examples.never (-1));
               Device.Poll Examples.polls; Device.ExitPath;
               Device.AppInit Examples.nvs_in_order;
               Device.Boot (Examples.boots 0 0)] in
  let s0 := Device.power_on Examples.buffer0 Examples.provisioned in
  Device.hardRst (fst (Device.run acts s0)) = 0
  ∧ is_Some (Device.nvs (fst (Device.run acts s0)) !! "initialized").
Proof.
  apply (provisioned_until_reset_requested
    [Device.AppInit Examples.nvs_in_order;
     Device.Boot (Examples.boots 0 0); Device.ProceedButton;
     Device.Poll Examples.polls;
     Device.Serve (Examples.peer 0x00 0x84 Examples.never (-1));
     Device.Poll Examples.polls; Device.ExitPath;
     Device.AppInit Examples.nvs_in_order;
     Device.Boot (Examples.boots 0 0)]
    (Device.power_on Examples.buffer0 Examples.provisioned));
    [reflexivity | by eexists | reflexivity | reflexivity].
Defined.

(** ** [initNVS] *)

(** X15. [initNVS] erases the NVS partition only when the first
    [nvs_flash_init] reports that there are no free pages (and the
    partition is found), and then retries the initialisation once if the
    erase worked; in every other case it initialises once and erases
    nothing.  It returns, rather than abort the program, exactly when the
    last [nvs_flash_init] it made returned [ESP_OK]. *)
Theorem initNVS_erases_only_without_free_pages (e : Startup.nvs_env) :
  let r := Startup.initNVS e in
  let full := Startup.first_init e = Startup.ESP_ERR_NVS_NO_FREE_PAGES in
  (Startup.count Startup.is_erase_range (fst r) = 1%nat ↔
     full ∧ Startup.partition_found e = true)
  ∧ (Startup.count Startup.is_erase_range (fst r) ≤ 1)%nat
  ∧ (Startup.count Startup.is_flash_init (fst r) = 2%nat ↔
     full ∧ Startup.partition_found e = true ∧ Startup.erase_ret e = ESP_OK)
  ∧ (1 ≤ Startup.count Startup.is_flash_init (fst r) ≤ 2)%nat
  ∧ (snd r = true ↔
     Startup.first_init e = ESP_OK
     ∨ (full ∧ Startup.partition_found e = true ∧ Startup.erase_ret e = ESP_OK
        ∧ Startup.second_init e = ESP_OK)).
Proof.
  cbv zeta. unfold Startup.initNVS.
  destruct (Z.eqb_spec (Startup.first_init e) Startup.ESP_ERR_NVS_NO_FREE_PAGES) as [Hf | Hf];
  destruct (Startup.partition_found e);
  destruct (Z.eqb_spec (Startup.erase_ret e) ESP_OK);
  destruct (Z.eqb_spec (Startup.second_init e) ESP_OK);
  destruct (Z.eqb_spec (Startup.first_init e) ESP_OK) as [H0 | H0];
  cbn; try (rewrite H0 in Hf; discriminate Hf);
  split_and!; try done; try lia; try tauto;
  try (intros [? | (? & ? & ? & ?)]; done).
Qed.

(** ** How long a session sleeps *)

(** X16. A session never sleeps longer than 16 s in all: at most 15 s in
    the gate and 1 s after a failed write.  A session without a sensitive
    command sleeps at most 5 s (the back-off after a refused connection),
    and one that answers a command that is not sensitive sleeps only after
    a failed write. *)
Theorem session_sleep_is_bounded (e : Task.session_env) (st : Task.state) :
  let tr := fst (fst (Task.session e st)) in
  0 ≤ delayed tr ≤ 16000
  ∧ (Task.sensitive (Task.parsed e) = false → delayed tr ≤ 5000)
  ∧ (command_received e = true → Task.sensitive (Task.parsed e) = false →
     delayed tr = if Task.write_ret e <? 0 then 1000 else 0).
Proof.
  cbv zeta. destruct (command_received e) eqn:Hc.
  - destruct (session_answer e st Hc) as (tg & tp & st2 & -> & Hg & Hp).
    cbn [fst snd]. rewrite !delayed_app.
    assert (Htp : delayed tp = 0) by (by destruct Hp as [(-> & _) | (-> & _)]).
    assert (Hw : delayed (fst (Task.writeOutput e st2))
                 = if Task.write_ret e <? 0 then 1000 else 0).
    { unfold Task.writeOutput. by destruct (Task.write_ret e <? 0). }
    rewrite Htp, Hw. cbn [delayed].
    destruct Hg as [[-> Hns] | [-> Hs]].
    + rewrite Hns. cbn [delayed].
      split_and!; intros; destruct (Task.write_ret e <? 0); lia.
    + rewrite Hs. destruct (gate_shape (Task.press e) st) as (n & Hn & -> & _).
      rewrite !delayed_app, pulses_delayed. cbn [delayed].
      split_and!; intros; try done; destruct (Task.write_ret e <? 0); lia.
  - rewrite session_no_command by done.
    destruct (Task.socket_ret e <? 0); [cbn; split_and!; intros; (done || lia) |].
    destruct (Task.connect_ret e =? 0); cbn; split_and!; intros; (done || lia).
Qed.


(** ** The fatal conditions, on the device *)

(** The prologue does not restart the device by itself. *)
Lemma prologue_no_restart (be : Task.boot_env) (nvs : gmap string Z) (h : Z) :
  occurrences is_restart (fst (fst (Task.prologue be nvs h))) = O.
Proof.
  remember (Task.read_err be nvs) as err eqn:Herr.
  unfold Task.prologue. rewrite <- Herr. clear Herr.
  prologue_cases be err; done.
Qed.

(** The call [esp_restart] is made in two places only: at the end of the
    exit path of [taskConnect], and by the reset monitor when it sees the
    flag set and has erased the key. *)
Lemma restart_is_exit_or_monitor (a : Device.action) (s : Device.sys) :
  occurrences is_restart (snd (Device.step a s)) ≠ O →
  (a = Device.ExitPath ∧ Device.task s = Device.Exiting
   ∧ snd (Device.step a s)
     = [TaskDelay 1000; TaskDelay 1000; TaskDelay 1000; UnmountFS; EspRestart])
  ∨ (∃ e, a = Device.Poll e ∧ Device.hardRst s = 1
       ∧ snd (Device.step a s)
         = [NvsOpen; NvsEraseKey "initialized"; UnmountFS; EspRestart]).
Proof.
  destruct a as [| | e | e | | e | e]; cbn [Device.step].
  - done.
  - done.
  - destruct (Device.task s); try done.
    pose proof (prologue_no_restart e (Device.nvs s) (Device.hardRst s)) as Hp.
    destruct (Task.prologue e (Device.nvs s) (Device.hardRst s)) as [[tb ready] h].
    cbn [fst snd] in *. by rewrite Hp.
  - destruct (Device.task s); try done.
    pose proof (session_keeps_running e (Device.conn s)) as (Hr & _). cbv zeta in Hr.
    destruct (Task.session e (Device.conn s)) as [[tr nx] st].
    cbn [fst snd] in *. by rewrite Hr.
  - destruct (Device.task s); try done. intros _. by left.
  - intros Hr. right. exists e.
    destruct (Z.eq_dec (Device.hardRst s) 1) as [Hh | Hh].
    + split_and!; try done. rewrite Hh in *. unfold Reset.poll in *.
      cbn [Z.eqb Pos.eqb] in *.
      destruct (Reset.open_ret e =? ESP_OK); [| done].
      destruct (Nvs.nvs_erase_key _ _ _) as [err nvs'].
      by destruct (err =? ESP_OK).
    + rewrite poll_keeps_store in Hr by done. done.
  - by destruct (Device.task s).
Qed.

Lemma run_keeps_flag_clear (pre : list Device.action) :
  ∀ s0, Device.hardRst s0 = 0 → existsb requests_reset pre = false →
    Device.hardRst (fst (Device.run pre s0)) = 0.
Proof.
  induction pre as [|a pre IH]; intros s0 Hh Hq; [done |].
  cbn [existsb] in Hq. apply orb_false_elim in Hq as [Ha Hq].
  rewrite run_cons. apply IH; [| done]. by apply step_keeps_flag_clear.
Qed.

(** C8, as amended.  (1) On every fatal provisioning condition (a failed
    open or read of the key, a failed [initialize] or [restoreState])
    [taskConnect] does, after the prologue: three delays of one second, the
    unmount of the storage, the restart; (2) on a socket that cannot be
    allocated it does the same after one more second.  (3) On the device,
    as long as the hard-reset flag is clear (the button was not pressed and
    no [restoreState] failed), every [esp_restart] is that controlled one:
    the only action that restarts is the exit path, with its countdown and
    its unmount.  (4) A failed [restoreState] is different: [taskConnect]
    sets the flag itself, and a poll of the reset monitor that comes before
    the end of the countdown erases the key, unmounts and restarts without
    any countdown.  (5) A failed mount at boot ends [app_main] in [exit(0)]:
    no countdown, no unmount, no restart, no task. *)
Theorem fatal_conditions_restart :
  (∀ be nvs h es st,
     Task.nvs_open_ret be ≠ ESP_OK
     ∨ (Task.read_err be nvs ≠ ESP_OK ∧ Task.read_err be nvs ≠ ESP_ERR_NVS_NOT_FOUND)
     ∨ (Task.read_err be nvs = ESP_OK ∧ Task.restoreState_ret be ≠ 0)
     ∨ (Task.read_err be nvs = ESP_ERR_NVS_NOT_FOUND ∧ Task.initialize_ret be ≠ 0) →
     Task.taskConnect be nvs h es st
     = (fst (fst (Task.prologue be nvs h))
        ++ [TaskDelay 1000; TaskDelay 1000; TaskDelay 1000; UnmountFS; EspRestart],
        None))
  ∧ (∀ e es st,
     Task.socket_ret e < 0 →
     Task.loop (e :: es) st
     = ([WaitBits; Socket; TaskDelay 1000;
         TaskDelay 1000; TaskDelay 1000; TaskDelay 1000; UnmountFS; EspRestart], None))
  ∧ (∀ pre a s0,
     Device.hardRst s0 = 0 → existsb requests_reset pre = false →
     occurrences is_restart (snd (Device.step a (fst (Device.run pre s0)))) ≠ O →
     a = Device.ExitPath
     ∧ snd (Device.step a (fst (Device.run pre s0)))
       = [TaskDelay 1000; TaskDelay 1000; TaskDelay 1000; UnmountFS; EspRestart])
  ∧ (∀ s be pe,
     Device.task s = Device.Booting →
     Task.nvs_open_ret be = ESP_OK → Task.nvs_get_fault be = None →
     is_Some (Device.nvs s !! "initialized") → Task.restoreState_ret be ≠ 0 →
     Reset.open_ret pe = ESP_OK → Reset.erase_fault pe = None →
     snd (Device.run [Device.Boot be; Device.Poll pe] s)
     = [GpioSetLevel 25 1; NvsOpen; NvsGetU8 "initialized"; NvsClose; RestoreState;
        StoreHardRst 1; NvsOpen; NvsEraseKey "initialized"; UnmountFS; EspRestart]
     ∧ Device.task (fst (Device.step (Device.Boot be) s)) = Device.Exiting
     ∧ Device.task (fst (Device.run [Device.Boot be; Device.Poll pe] s)) = Device.Booting
     ∧ Device.nvs (fst (Device.run [Device.Boot be; Device.Poll pe] s)) !! "initialized"
       = None)
  ∧ (∀ mount_err,
     mount_err ≠ ESP_OK →
     Main.app_main mount_err = [InitGPIO; InitNVS; MountFS; Exit 0]).
Proof.
  split_and!.
  - intros be nvs h es st Hfatal. apply prologue_fails_iff with (h := h) in Hfatal.
    unfold Task.taskConnect.
    destruct (Task.prologue be nvs h) as [[tb ready] h']. cbn [fst snd] in Hfatal |- *.
    by rewrite Hfatal.
  - intros e es st Hs. cbn [Task.loop]. unfold Task.session.
    by replace (Task.socket_ret e <? 0) with true by (symmetry; apply Z.ltb_lt; lia).
  - intros pre a s0 H0 Hq Hr.
    destruct (restart_is_exit_or_monitor _ _ Hr) as [(-> & _ & Htr) | (e & -> & Hh & _)];
      [done |].
    rewrite run_keeps_flag_clear in Hh by done. lia.
  - intros s be pe Ht Ho Hf [v Hv] Hrs Hpo Hpf.
    assert (Hboot : Device.step (Device.Boot be) s
      = (Device.mk 1 (Device.conn s) (Device.nvs s) Device.Exiting,
         [GpioSetLevel 25 1; NvsOpen; NvsGetU8 "initialized"; NvsClose; RestoreState;
          StoreHardRst 1])).
    { cbn [Device.step]. rewrite Ht.
      unfold Task.prologue, Task.read_err, Nvs.nvs_get_u8, Nvs.with_fault.
      rewrite Ho, Hf, Hv. cbn [Z.eqb negb fst].
      replace (Task.restoreState_ret be =? 0) with false
        by (symmetry; by apply Z.eqb_neq).
      reflexivity. }
    assert (Hrun : Device.run [Device.Boot be; Device.Poll pe] s
      = (Device.mk 0 (Task.mk (Task.output (Device.conn s)) 0)
           (delete "initialized" (Device.nvs s)) Device.Booting,
         [GpioSetLevel 25 1; NvsOpen; NvsGetU8 "initialized"; NvsClose; RestoreState;
          StoreHardRst 1; NvsOpen; NvsEraseKey "initialized"; UnmountFS; EspRestart])).
    { cbn [Device.run]. rewrite Hboot.
      cbn [Device.step Device.hardRst Device.nvs Device.conn Device.task].
      unfold Reset.poll. cbn [Z.eqb Pos.eqb]. rewrite Hpo. cbn [Z.eqb].
      unfold Nvs.nvs_erase_key, Nvs.with_fault. rewrite Hpf, Hv. cbn [Z.eqb].
      reflexivity. }
    rewrite Hrun, Hboot. cbn [fst snd Device.task Device.nvs].
    split_and!; try done. apply lookup_delete_eq.
  - intros mount_err Hm. unfold Main.app_main, Main.mountFS.
    by destruct (Z.eqb_spec mount_err ESP_OK).
Qed.

(** Provisioning fails on a fresh device ([initialize] returns non-zero):
    the restart that follows is the exit path. *)
Lemma fatal_conditions_restart_witness :
  let s0 := Device.power_on Examples.buffer0 ∅ in
  let pre := [Device.AppInit Examples.nvs_in_order; Device.Boot (Examples.boots 0 1)] in
  Device.ExitPath = Device.ExitPath
  ∧ snd (Device.step Device.ExitPath (fst (Device.run pre s0)))
    = [TaskDelay 1000; TaskDelay 1000; TaskDelay 1000; UnmountFS; EspRestart].
Proof.
  apply (proj1 (proj2 (proj2 fatal_conditions_restart))
    [Device.AppInit Examples.nvs_in_order; Device.Boot (Examples.boots 0 1)]
    Device.ExitPath (Device.power_on Examples.buffer0 ∅));
    [reflexivity | reflexivity | vm_compute; discriminate].
Defined.
